(** * Verification of the lude factor-search pipeline

    Two parts:
    - [Notebook]: the Optuna encoded-combination search of
      [optuna_search/new_test/bayesian_optuna_150_5.ipynb]
      ([combinations], [decode_combination], [objective],
      [flexible_decode_combination]);
    - [Multistage]: the two-phase semantic strategy search (fixed parameter
      space, decode, phase-two routing, result analysis). *)

From Stdlib Require Import String Ascii ZArith QArith Lia Bool Arith List.
From Stdlib Require Import Sorting.Sorted Permutation.
From Stdlib Require Import DecimalString DecimalNat.
Import ListNotations.
Open Scope nat_scope.

(** Python values stored in an Optuna [trial.params] dictionary. *)
Inductive pyval :=
| VInt (z : Z)
| VBool (b : bool)
| VStr (s : string).

(** Dictionary lookup in an association list (first match). *)
Fixpoint dict_get (d : list (string * pyval)) (k : string) : option pyval :=
  match d with
  | [] => None
  | (k', v) :: d' => if String.eqb k k' then Some v else dict_get d' k
  end.

(** Python's [x < y] on numbers. *)
Definition Qltb (x y : Q) : bool := negb (Qle_bool y x).

(** Python [str(n)] for a non-negative integer. *)
Definition py_str_nat (n : nat) : string :=
  NilEmpty.string_of_uint (Nat.to_uint n).

(** Python's [l[i]] on a list: negative indices count from the end, an index
    out of range raises [IndexError] (here [None]). *)
Definition py_index {A} (l : list A) (i : Z) : option A :=
  if (i <? 0)%Z then
    (if (Z.of_nat (length l) + i <? 0)%Z then None
     else nth_error l (Z.to_nat (Z.of_nat (length l) + i)))
  else nth_error l (Z.to_nat i).

(** [itertools.combinations(l, k)]: the k-element sub-sequences of [l], in
    lexicographic order of positions. *)
Fixpoint combinations {A} (l : list A) (k : nat) : list (list A) :=
  match k, l with
  | O, _ => [[]]
  | S _, [] => []
  | S k', x :: xs => map (cons x) (combinations xs k') ++ combinations xs k
  end.

(** Duplicate check on a list of names. *)
Fixpoint nodupb (l : list string) : bool :=
  match l with
  | [] => true
  | x :: xs => negb (existsb (String.eqb x) xs) && nodupb xs
  end.

(** Python [[f(x) for x in l]] where [f] may raise. *)
Fixpoint map_opt {A B} (f : A -> option B) (l : list A) : option (list B) :=
  match l with
  | [] => Some []
  | x :: xs =>
      match f x with
      | Some y => match map_opt f xs with Some ys => Some (y :: ys) | None => None end
      | None => None
      end
  end.

Module Notebook.

Local Open Scope string_scope.

(** Cell 2: the factor list. *)
Definition factors : list string :=
  ["pre_close"; "open"; "high"; "low"; "close"; "pct_chg"; "vol";
   "amount"; "volatility_stk"; "mod_conv_prem"; "remain_cap"; "conv_prem";
   "turnover"; "theory_value"; "option_value"; "dblow";
   "theory_bias"; "ytm"; "cap_mv_rate"; "pure_value"; "bond_prem";
   "remain_size"; "theory_conv_prem"; "pb"; "pe_ttm"; "ps_ttm"].

(** Cell 1: [num_factors = 3]. *)
Definition num_factors : nat := 3.

(** Cell 3: [combinations = list(itertools.combinations(range(len(factors)), num_factors))].
    [encoded_combinations] is the dictionary [{i: combo}] over the same list. *)
Definition combinations_nb : list (list nat) :=
  combinations (seq 0 (length factors)) num_factors.

(** [encoded_combinations[encoded_id]]: a dictionary lookup, [KeyError]
    (here [None]) outside [0 .. len - 1]. *)
Definition encoded_combinations (i : Z) : option (list nat) :=
  if (i <? 0)%Z then None else nth_error combinations_nb (Z.to_nat i).

(** [decode_combination(encoded) = [factors[i] for i in encoded]]. *)
Definition decode_combination (encoded : list nat) : option (list string) :=
  map_opt (fun i => nth_error factors i) encoded.

Definition weight_name (i : nat) : string := "factor" ++ py_str_nat i ++ "_weight".
Definition ascending_name (i : nat) : string := "factor" ++ py_str_nat i ++ "_ascending".

(** A [factor_info] dictionary [{'name': .., 'weight': .., 'ascending': ..}]. *)
Record factor_info := mk_factor_info {
  fi_name : string;
  fi_weight : pyval;
  fi_ascending : pyval
}.

(** The [rank_factors] list built by [objective(trial)]; [suggest n] is the value
    the sampler returns for the parameter named [n] ([trial.suggest_*]). *)
Definition objective_rank_factors (suggest : string -> pyval) : option (list factor_info) :=
  match suggest "encoded_id" with
  | VInt encoded_id =>
      match encoded_combinations encoded_id with
      | None => None
      | Some factor_ids =>
          match decode_combination factor_ids with
          | None => None
          | Some decoded_factors =>
              map_opt (fun i =>
                match nth_error decoded_factors i with
                | Some nm => Some (mk_factor_info nm
                                     (suggest (weight_name (i + 1)))
                                     (suggest (ascending_name (i + 1))))
                | None => None
                end) (seq 0 num_factors)
          end
      end
  | _ => None
  end.

(** Python exceptions raised by the code ([IndexError], [KeyError], or the
    error raised inside [cal_cagr]). *)
Inductive py_exc :=
| LookupError
| ScorerError (msg : string).

(** [objective(trial)]: build [rank_factors], then return
    [cal_cagr(df, ..., rank_factors)] (no [try]: an exception of [cal_cagr]
    leaves [objective]). *)
Definition objective (cal_cagr : list factor_info -> py_exc + Q)
    (suggest : string -> pyval) : py_exc + Q :=
  match objective_rank_factors suggest with
  | None => inl LookupError
  | Some rank_factors =>
      match cal_cagr rank_factors with
      | inl e => inl e
      | inr cagr => inr cagr
      end
  end.

(** Cell 6: [flexible_decode_combination(encoded_params)]; the dictionary is a
    partial map, a missing key raises [KeyError]. *)
Definition flexible_decode_combination (encoded_params : string -> option pyval)
    : option (list factor_info) :=
  match encoded_params "encoded_id" with
  | Some (VInt eid) =>
      match py_index combinations_nb eid with
      | None => None
      | Some factor_indices =>
          map_opt (fun '(i, index) =>
            match nth_error factors index,
                  encoded_params (weight_name (i + 1)),
                  encoded_params (ascending_name (i + 1)) with
            | Some nm, Some w, Some a => Some (mk_factor_info nm w a)
            | _, _, _ => None
            end) (combine (seq 0 (length factor_indices)) factor_indices)
      end
  | _ => None
  end.


(** The record of a finished trial, as in the notebook's [best_params]. *)
Definition example_params : list (string * pyval) :=
  [("encoded_id", VInt 1000%Z);
   (weight_name 1, VInt 3%Z); (ascending_name 1, VBool false);
   (weight_name 2, VInt 1%Z); (ascending_name 2, VBool true);
   (weight_name 3, VInt 1%Z); (ascending_name 3, VBool false)].

Definition example_suggest (n : string) : pyval :=
  match dict_get example_params n with Some v => v | None => VInt 0%Z end.

End Notebook.

(** * The multistage semantic optimisation

    The modules [config.py], [semantic_objective_v2.py] and [coordinator.py]
    of [src/lude/optimization/strategies/multistage/] are known here through
    their design documentation only.  Their behaviour is modelled below from
    the design specification, with the parameter names and configured
    constants of the multistage README (196 parameters
    [primary_strategy], [use_mixed_strategy], [secondary_strategy],
    [enable_auxiliary], [weight_{factor}], [ascending_{factor}],
    [enable_secondary_{factor}], [enable_aux_{factor}];
    [min_core_factors: 6], [max_mixed_factors: 12]; 30% exploration). *)
Module Multistage.

Local Open Scope string_scope.

(** Modelled from the spec: [Strategy] of the strategy catalog
    ([StrategyConfig] in the missing [config.py]). *)
Record Strategy := mk_strategy {
  st_name : string;
  core_factors : list string
}.

(** Modelled from the spec: the strategy catalog with its combination rules
    ([strategy_config.yaml], loaded by the missing [config.py]). *)
Record StrategyCatalog := mk_catalog {
  strategies : list Strategy;
  factor_pool : list string;
  exclusive_combinations : list (string * string);
  factor_conflicts : list (string * string);
  min_core_factors : nat;
  max_mixed_factors : nat;
  max_aux_factors : nat
}.

(** Modelled from the spec: [getStrategy(name) -> Strategy | fails NotFound]. *)
Definition getStrategy (cat : StrategyCatalog) (name : string) : option Strategy :=
  find (fun st => String.eqb (st_name st) name) (strategies cat).

(** Modelled from the spec: [isValidCombination(primary, secondary)] rejects every
    pair of the mutually-exclusive list, in either order. *)
Definition isValidCombination (cat : StrategyCatalog) (primary secondary : string) : bool :=
  negb (existsb (fun '(a, b) =>
          (String.eqb a primary && String.eqb b secondary) ||
          (String.eqb a secondary && String.eqb b primary))
        (exclusive_combinations cat)).

(** ** FixedParameterSpace *)

Definition base_param_names : list string :=
  ["primary_strategy"; "use_mixed_strategy"; "secondary_strategy"; "enable_auxiliary"].

Definition factor_param_names (f : string) : list string :=
  ["weight_" ++ f; "ascending_" ++ f; "enable_secondary_" ++ f; "enable_aux_" ++ f].

(** Every parameter name declared for a factor pool. *)
Definition param_names (pool : list string) : list string :=
  app base_param_names (flat_map factor_param_names pool).

(** A trial's parameters, as the sampler records them ([trial.params]). *)
Definition TrialParameters := list (string * pyval).

(** Modelled from the spec: [sampleAll(trialContext)] suggests a value for every
    declared parameter; [suggest n] is the sampler's draw for the name [n]. *)
Definition sampleAll (pool : list string) (suggest : string -> pyval) : TrialParameters :=
  map (fun n => (n, suggest n)) (param_names pool).

Definition get_str (p : TrialParameters) (n : string) : option string :=
  match dict_get p n with Some (VStr s) => Some s | _ => None end.
Definition get_bool (p : TrialParameters) (n : string) : option bool :=
  match dict_get p n with Some (VBool b) => Some b | _ => None end.
Definition get_int (p : TrialParameters) (n : string) : option Z :=
  match dict_get p n with Some (VInt z) => Some z | _ => None end.

(** Overwrite the value of an already-sampled parameter; no name is added. *)
Definition set_param (n : string) (v : pyval) (p : TrialParameters) : TrialParameters :=
  map (fun '(k, x) => if String.eqb k n then (k, v) else (k, x)) p.

(** ** Decode *)

(** Result of decoding: a combination, [TrialPruned], an unknown strategy
    name (a configuration error), or a parameter missing from the record. *)
Inductive DecodeResult (A : Type) :=
| DOk (a : A)
| DPruned
| DNotFound (name : string)
| DMalformed (name : string).
Arguments DOk {A} a.
Arguments DPruned {A}.
Arguments DNotFound {A} name.
Arguments DMalformed {A} name.

Definition dbind {A B} (c : DecodeResult A) (k : A -> DecodeResult B) : DecodeResult B :=
  match c with
  | DOk a => k a
  | DPruned => DPruned
  | DNotFound n => DNotFound n
  | DMalformed n => DMalformed n
  end.

Definition need {A} (n : string) (o : option A) : DecodeResult A :=
  match o with Some a => DOk a | None => DMalformed n end.

(** Keep the factors whose boolean flag [prefix ++ f] is set. *)
Fixpoint filter_enabled (p : TrialParameters) (prefix : string) (l : list string)
    : DecodeResult (list string) :=
  match l with
  | [] => DOk []
  | f :: fs =>
      dbind (need (prefix ++ f) (get_bool p (prefix ++ f))) (fun b =>
      dbind (filter_enabled p prefix fs) (fun r =>
      DOk (if b then f :: r else r)))
  end.

Definition mem (f : string) (l : list string) : bool := existsb (String.eqb f) l.

(** A (factor identifier, weight, ascending) entry of a ranked combination. *)
Definition RankedFactorCombination := list (string * Z * bool).

(** Modelled from the spec: steps 1-2 of [decode] (missing
    [semantic_objective_v2.py]): resolve the primary strategy, validate a mixed
    combination, and build the candidate factor set (primary pool, enabled
    secondary members, at most [max_aux_factors] enabled factors outside the
    pools in use), duplicates removed. *)
Definition candidate_set (cat : StrategyCatalog) (p : TrialParameters)
    : DecodeResult (list string) :=
  dbind (need "primary_strategy" (get_str p "primary_strategy")) (fun prim_name =>
  dbind (match getStrategy cat prim_name with
         | Some st => DOk st | None => DNotFound prim_name end) (fun prim =>
  dbind (need "use_mixed_strategy" (get_bool p "use_mixed_strategy")) (fun mixed =>
  dbind (if mixed then
           dbind (need "secondary_strategy" (get_str p "secondary_strategy")) (fun sec_name =>
           if negb (isValidCombination cat prim_name sec_name) then DPruned else
           dbind (match getStrategy cat sec_name with
                  | Some st => DOk st | None => DNotFound sec_name end) (fun sec =>
           dbind (filter_enabled p "enable_secondary_" (core_factors sec)) (fun chosen =>
           DOk (core_factors sec, chosen))))
         else DOk ([], [])) (fun '(sec_pool, sec_chosen) =>
  dbind (need "enable_auxiliary" (get_bool p "enable_auxiliary")) (fun aux_on =>
  dbind (if aux_on then
           let outside := filter (fun f => negb (mem f (core_factors prim)) &&
                                           negb (mem f sec_pool)) (factor_pool cat) in
           dbind (filter_enabled p "enable_aux_" outside) (fun enabled =>
           DOk (firstn (max_aux_factors cat) enabled))
         else DOk []) (fun aux =>
  DOk (nodup string_dec (app (core_factors prim) (app sec_chosen aux))))))))).

(** A configured conflict: two near-duplicate factors both present. *)
Definition has_conflict (cat : StrategyCatalog) (c : list string) : bool :=
  existsb (fun '(a, b) => mem a c && mem b c) (factor_conflicts cat).

Fixpoint attach_weights (p : TrialParameters) (c : list string)
    : DecodeResult RankedFactorCombination :=
  match c with
  | [] => DOk []
  | f :: fs =>
      dbind (need ("weight_" ++ f) (get_int p ("weight_" ++ f))) (fun w =>
      dbind (need ("ascending_" ++ f) (get_bool p ("ascending_" ++ f))) (fun a =>
      dbind (attach_weights p fs) (fun r => DOk ((f, w, a) :: r))))
  end.

(** Modelled from the spec: [decode(TrialParameters, StrategyCatalog)]
    (steps 1-5 of the phase-one sampler). *)
Definition decode (cat : StrategyCatalog) (p : TrialParameters)
    : DecodeResult RankedFactorCombination :=
  dbind (candidate_set cat p) (fun c =>
  if negb (Nat.leb (min_core_factors cat) (length c) && Nat.leb (length c) (max_mixed_factors cat))
  then DPruned
  else if has_conflict cat c then DPruned
  else attach_weights p c).

(** ** Scoring *)

Inductive ScoringError :=
| ScorerRaised (msg : string)
| ScorerTimeout.

(** The external backtest scorer's answer for one combination. *)
Inductive ScoreResult :=
| ScoreOk (cagr : Q)
| ScoreFailed (e : ScoringError).

(** How a trial ends. *)
Inductive TrialOutcome :=
| Scored (cagr : Q)
| TrialPruned
| TrialErrored (e : ScoringError)
| ConfigurationError (name : string)
| MalformedParameters (name : string).

(** Modelled from the spec: the phase-one objective (decode, then score; the
    [create_fixed_semantic_objective_function] of the missing
    [semantic_objective_v2.py]).  Besides the outcome it returns the
    combinations handed to the scorer, in call order. *)
Definition objective (cat : StrategyCatalog)
    (scorer : RankedFactorCombination -> ScoreResult) (p : TrialParameters)
    : TrialOutcome * list RankedFactorCombination :=
  match decode cat p with
  | DOk rc =>
      match scorer rc with
      | ScoreOk cagr => (Scored cagr, [rc])
      | ScoreFailed e => (TrialErrored e, [rc])
      end
  | DPruned => (TrialPruned, [])
  | DNotFound n => (ConfigurationError n, [])
  | DMalformed n => (MalformedParameters n, [])
  end.

(** ** Random draws: a state monad over a stream of uniform numbers in [0,1) *)

Definition Rng := ((nat -> Q) * nat)%type.
Definition M (A : Type) := Rng -> A * Rng.

Definition mret {A} (a : A) : M A := fun s => (a, s).
Definition mbind {A B} (c : M A) (k : A -> M B) : M B :=
  fun s => let (a, s') := c s in k a s'.
Definition draw : M Q := fun '(g, i) => (g i, (g, S i)).

(** ** PhaseOneFindings and StrategyAnalyzer *)

Inductive TrialState :=
| Complete (score : Q)
| PrunedState.

Record TrialResult := mk_trial {
  tr_id : nat;
  tr_state : TrialState;
  tr_strategy : string;
  tr_combination : RankedFactorCombination
}.

Definition is_complete (t : TrialResult) : bool :=
  match tr_state t with Complete _ => true | PrunedState => false end.

Definition score_of (t : TrialResult) : Q :=
  match tr_state t with Complete q => q | PrunedState => 0%Q end.

(** Insert after every trial of greater or equal score: the sort is stable. *)
Fixpoint insert_desc (t : TrialResult) (l : list TrialResult) : list TrialResult :=
  match l with
  | [] => [t]
  | u :: us => if Qltb (score_of u) (score_of t) then t :: u :: us
               else u :: insert_desc t us
  end.

(** [t] ranks before [u]: higher score, or equal score and earlier id. *)
Definition ranks_before (t u : TrialResult) : Prop :=
  (score_of u < score_of t)%Q \/ ((score_of u == score_of t)%Q /\ tr_id t < tr_id u).

(** Sort by score, descending, equal scores in insertion order. *)
Definition sort_desc (l : list TrialResult) : list TrialResult :=
  fold_left (fun acc t => insert_desc t acc) l [].

Definition completed (trials : list TrialResult) : list TrialResult :=
  filter is_complete trials.

Definition top_n (trials : list TrialResult) (n : nat) : list TrialResult :=
  firstn n (sort_desc (completed trials)).

Fixpoint sum_Q (l : list Q) : Q :=
  match l with [] => 0%Q | q :: qs => (q + sum_Q qs)%Q end.

Definition strategy_mean (top : list TrialResult) (st : string) : option Q :=
  let qs := map score_of (filter (fun t => String.eqb (tr_strategy t) st) top) in
  match qs with
  | [] => None
  | _ => Some (sum_Q qs / inject_Z (Z.of_nat (length qs)))%Q
  end.

Definition factor_names (rc : RankedFactorCombination) : list string :=
  map (fun '(f, _, _) => f) rc.

Definition factor_inclusion (top : list TrialResult) (f : string) : nat :=
  length (filter (fun t => mem f (factor_names (tr_combination t))) top).

Definition weight_histogram (top : list TrialResult) (f : string) (w : Z) : nat :=
  length (filter (fun t => existsb (fun '(g, w', _) => String.eqb g f && Z.eqb w' w)
                                   (tr_combination t)) top).

Definition direction_histogram (top : list TrialResult) (f : string) (b : bool) : nat :=
  length (filter (fun t => existsb (fun '(g, _, a) => String.eqb g f && Bool.eqb a b)
                                   (tr_combination t)) top).

Record PhaseOneFindings := mk_findings {
  top_trials : list TrialResult;
  strategy_means : string -> option Q;
  factor_inclusions : string -> nat;
  weight_histograms : string -> Z -> nat;
  direction_histograms : string -> bool -> nat
}.

Definition findings_of (top : list TrialResult) : PhaseOneFindings :=
  mk_findings top (strategy_mean top) (factor_inclusion top)
              (weight_histogram top) (direction_histogram top).

(** Modelled from the spec: [StrategyAnalyzer.analyze(trials, topN)]
    ([analyze_best_strategies] of the missing [semantic_objective_v2.py]). *)
Definition analyze (trials : list TrialResult) (topN : nat) : PhaseOneFindings :=
  findings_of (top_n trials topN).

(** ** PhaseTwoRefiner *)

(** The first value of [l] among those occurring most often. *)
Definition most_frequent {A} (eqb : A -> A -> bool) (l : list A) : option A :=
  let cnt a := length (filter (eqb a) l) in
  fold_left (fun best a =>
    match best with
    | None => Some a
    | Some b => if Nat.ltb (cnt b) (cnt a) then Some a else Some b
    end) l None.

Definition preferred_strategy (F : PhaseOneFindings) : option string :=
  most_frequent String.eqb (map tr_strategy (top_trials F)).

Definition preferred_weight (F : PhaseOneFindings) (f : string) : option Z :=
  most_frequent Z.eqb
    (flat_map (fun t => flat_map (fun '(g, w, _) => if String.eqb g f then [w] else [])
                                 (tr_combination t)) (top_trials F)).

Definition preferred_direction (F : PhaseOneFindings) (f : string) : option bool :=
  most_frequent Bool.eqb
    (flat_map (fun t => flat_map (fun '(g, _, a) => if String.eqb g f then [a] else [])
                                 (tr_combination t)) (top_trials F)).

(** Modelled from the spec: [explorationRatio] (30% exploration) and the high
    but non-absolute probability of a guided correction. *)
Definition explorationRatio : Q := 3 # 10.
Definition guidanceProbability : Q := 8 # 10.

(** Re-sample one already-drawn value towards the preferred one. *)
Definition guide_param (n : string) (pref : option pyval) (p : TrialParameters)
    : M TrialParameters :=
  mbind draw (fun u =>
  mret (match pref with
        | Some v => if Qltb u guidanceProbability then set_param n v p else p
        | None => p
        end)).

Fixpoint guide_factors (F : PhaseOneFindings) (pool : list string) (p : TrialParameters)
    : M TrialParameters :=
  match pool with
  | [] => mret p
  | f :: fs =>
      mbind (guide_param ("weight_" ++ f) (option_map VInt (preferred_weight F f)) p) (fun p1 =>
      mbind (guide_param ("ascending_" ++ f) (option_map VBool (preferred_direction F f)) p1)
        (fun p2 => guide_factors F fs p2))
  end.

(** Modelled from the spec: the soft corrections of guided mode. *)
Definition guided_adjust (F : PhaseOneFindings) (pool : list string) (p : TrialParameters)
    : M TrialParameters :=
  mbind (guide_param "primary_strategy" (option_map VStr (preferred_strategy F)) p)
    (fun p1 => guide_factors F pool p1).

Inductive Mode := Exploration | Guided.

(** Modelled from the spec: routing of a phase-two trial on [r] in [0,1). *)
Definition route (r : Q) : Mode :=
  if Qltb r explorationRatio then Exploration else Guided.

Inductive Phase :=
| PhaseOne
| PhaseTwo (F : PhaseOneFindings).

(** Modelled from the spec: one trial of either phase: sample every parameter,
    in phase two route it, correct it in guided mode, then decode and score.
    Returns the parameters that were decoded and the objective's result. *)
Definition run_trial (ph : Phase) (cat : StrategyCatalog)
    (scorer : RankedFactorCombination -> ScoreResult) (suggest : string -> pyval)
    : M (TrialParameters * (TrialOutcome * list RankedFactorCombination)) :=
  let p := sampleAll (factor_pool cat) suggest in
  match ph with
  | PhaseOne => mret (p, objective cat scorer p)
  | PhaseTwo F =>
      mbind draw (fun r =>
      match route r with
      | Exploration => mret (p, objective cat scorer p)
      | Guided => mbind (guided_adjust F (factor_pool cat) p)
                        (fun p' => mret (p', objective cat scorer p'))
      end)
  end.

(** ** A sample catalog with the documented bounds *)

(** Modelled from the spec: a pool of 48 factors (names taken from the
    repository's factor lists). *)
Definition sample_pool : list string :=
  ["pre_close"; "open"; "high"; "low"; "close"; "pct_chg"; "vol"; "amount";
   "volatility_stk"; "mod_conv_prem"; "remain_cap"; "conv_prem"; "turnover";
   "theory_value"; "option_value"; "dblow"; "theory_bias"; "ytm"; "cap_mv_rate";
   "pure_value"; "bond_prem"; "remain_size"; "theory_conv_prem"; "pb"; "pe_ttm";
   "ps_ttm"; "pc1"; "pc3"; "pc5"; "pc7"; "rsi1"; "rsi3"; "rsi5"; "rsi7";
   "stoch1"; "stoch_signal1"; "stoch2"; "stoch_signal2"; "stoch3";
   "stoch_signal3"; "macd"; "macd_signal"; "macd_diff"; "adx7"; "adx14";
   "momentum3"; "momentum6"; "momentum12"].

(** Modelled from the spec: a catalog of the six documented strategies, with
    [min_core_factors = 6] and [max_mixed_factors = 12]. *)
Definition sample_catalog : StrategyCatalog := {|
  strategies := [
    mk_strategy "value" ["dblow"; "conv_prem"; "mod_conv_prem"; "pure_value"; "bond_prem"; "ytm"];
    mk_strategy "growth" ["theory_value"; "option_value"; "pe_ttm"; "pb"; "ps_ttm"; "cap_mv_rate"];
    mk_strategy "momentum" ["pc1"; "pc3"; "pc5"; "momentum3"; "momentum6"; "macd"];
    mk_strategy "liquidity" ["vol"; "amount"; "turnover"; "remain_size"; "remain_cap"; "volatility_stk"];
    mk_strategy "contrarian" ["rsi1"; "rsi3"; "rsi5"; "stoch1"; "stoch2"; "theory_bias"];
    mk_strategy "balanced" ["dblow"; "pc3"; "turnover"; "pb"; "rsi3"; "macd_diff"]];
  factor_pool := sample_pool;
  exclusive_combinations := [("momentum", "contrarian")];
  factor_conflicts := [("conv_prem", "theory_conv_prem")];
  min_core_factors := 6;
  max_mixed_factors := 12;
  max_aux_factors := 2 |}.

(** Modelled from the spec: sampler draws for the sample catalog, with the given
    strategy choices, every weight 3, every direction and secondary flag set, and
    the auxiliary flag set for the factors [aux_on] only. *)
Definition sample_suggest (prim sec : string) (mixed aux : bool) (aux_on : list string)
    (n : string) : pyval :=
  if String.eqb n "primary_strategy" then VStr prim
  else if String.eqb n "secondary_strategy" then VStr sec
  else if String.eqb n "use_mixed_strategy" then VBool mixed
  else if String.eqb n "enable_auxiliary" then VBool aux
  else if String.prefix "weight_" n then VInt 3%Z
  else if String.prefix "enable_aux_" n then
    VBool (existsb (fun f => String.eqb n ("enable_aux_" ++ f)) aux_on)
  else VBool true.

Definition sample_params (prim sec : string) (mixed aux : bool) (aux_on : list string)
    : TrialParameters :=
  sampleAll sample_pool (sample_suggest prim sec mixed aux aux_on).

(** A trial history in id order: a pruned trial and two trials tied on score. *)
Definition sample_history : list TrialResult :=
  [mk_trial 0 (Complete (1 # 2)) "value" [("dblow", 3%Z, true)];
   mk_trial 1 PrunedState "growth" [];
   mk_trial 2 (Complete (3 # 4)) "momentum" [("pc3", 2%Z, false)];
   mk_trial 3 (Complete (1 # 2)) "value" [("ytm", 1%Z, true)];
   mk_trial 4 (Complete (1 # 10)) "balanced" [("pb", 5%Z, true)]].

End Multistage.

(** * Python helpers shared by the other notebooks *)

Module Py.

Local Open Scope string_scope.

(** Exceptions the notebook cells can raise; [ScorerFailure] stands for any
    exception raised inside [cal_cagr]. *)
Inductive exc :=
| KeyError (k : string)
| IndexError
| TypeError
| ValueError
| ScorerFailure (msg : string).

Definition pyval_eq_dec (x y : pyval) : {x = y} + {x <> y}.
Proof. decide equality; auto using Z.eq_dec, bool_dec, string_dec. Defined.

(** [k in d] for a dictionary given as an association list. *)
Definition key_in (d : list (string * pyval)) (k : string) : bool :=
  existsb (fun kv => String.eqb k (fst kv)) d.

(** [d[k]]: [KeyError] when the key is absent. *)
Definition getitem (d : list (string * pyval)) (k : string) : exc + pyval :=
  match dict_get d k with Some v => inr v | None => inl (KeyError k) end.

(** The value a [set] or [==] compares: [True == 1] and [False == 0]. *)
Definition hash_key (v : pyval) : Z + string :=
  match v with
  | VInt z => inl z
  | VBool b => inl (if b then 1%Z else 0%Z)
  | VStr s => inr s
  end.

Definition hash_key_eq_dec (x y : Z + string) : {x = y} + {x <> y}.
Proof. decide equality; auto using Z.eq_dec, string_dec. Defined.

(** [int(v)] as used for an index: [bool] is a subclass of [int]. *)
Definition as_index (v : pyval) : exc + Z :=
  match v with
  | VInt z => inr z
  | VBool b => inr (if b then 1%Z else 0%Z)
  | VStr _ => inl TypeError
  end.

(** [l[v]] for a list [l]: negative indices count from the end. *)
Definition list_getitem {A} (l : list A) (v : pyval) : exc + A :=
  match as_index v with
  | inl e => inl e
  | inr i => match py_index l i with Some x => inr x | None => inl IndexError end
  end.

(** Python truth value, as used by [not v]. *)
Definition truth (v : pyval) : bool :=
  match v with
  | VInt z => negb (Z.eqb z 0)
  | VBool b => b
  | VStr s => negb (String.eqb s "")
  end.

(** A [for] loop that appends to a list and stops at the first exception. *)
Fixpoint map_exc {A B} (f : A -> exc + B) (l : list A) : exc + list B :=
  match l with
  | [] => inr []
  | x :: xs =>
      match f x with
      | inl e => inl e
      | inr y => match map_exc f xs with inl e => inl e | inr ys => inr (y :: ys) end
      end
  end.

End Py.

(** * [back_test/convert_param.ipynb]: decoding a stored parameter record

    Unlike the search notebook, this decoder finds the number of factors from
    the record itself and enumerates the combinations of its own factor list. *)

Module ConvertParam.

Local Open Scope string_scope.
Import Notebook.

(** Cell 0: the factor list of this notebook (27 entries; ['amount'] is listed
    at positions 7 and 14). *)
Definition factors : list string :=
  ["pre_close"; "open"; "high"; "low"; "close"; "pct_chg"; "vol";
   "amount"; "volatility_stk"; "mod_conv_prem"; "remain_cap"; "conv_prem";
   "turnover"; "theory_value"; "amount"; "option_value"; "dblow";
   "theory_bias"; "ytm"; "cap_mv_rate"; "pure_value"; "bond_prem";
   "remain_size"; "theory_conv_prem"; "pb"; "pe_ttm"; "ps_ttm"].

(** [while f'factor{num_factors+1}_weight' in encoded_params: num_factors += 1],
    run for at most [fuel] rounds from [num_factors = n]. *)
Fixpoint count_weights (encoded_params : list (string * pyval)) (fuel n : nat) : nat :=
  match fuel with
  | O => n
  | S fuel' =>
      if Py.key_in encoded_params (weight_name (n + 1))
      then count_weights encoded_params fuel' (n + 1)
      else n
  end.

(** The loop of cell 1.  The keys [factor1_weight], [factor2_weight], ... are
    distinct, so the loop runs at most [len(encoded_params)] rounds and the
    bound [S (length encoded_params)] never stops it early
    ([ConvertParamFacts.num_factors_of_spec]). *)
Definition num_factors_of (encoded_params : list (string * pyval)) : nat :=
  count_weights encoded_params (S (length encoded_params)) 0.

(** Cell 1: [flexible_decode_combination(encoded_params)]. *)
Definition flexible_decode_combination (encoded_params : list (string * pyval))
    : Py.exc + list factor_info :=
  let num_factors := num_factors_of encoded_params in
  let combinations := combinations (seq 0 (length factors)) num_factors in
  match Py.getitem encoded_params "encoded_id" with
  | inl e => inl e
  | inr eid =>
      match Py.list_getitem combinations eid with
      | inl e => inl e
      | inr factor_indices =>
          Py.map_exc (fun '(i, index) =>
            match nth_error factors index with
            | None => inl Py.IndexError
            | Some nm =>
                match Py.getitem encoded_params (weight_name (i + 1)) with
                | inl e => inl e
                | inr w =>
                    match Py.getitem encoded_params (ascending_name (i + 1)) with
                    | inl e => inl e
                    | inr a => inr (mk_factor_info nm w a)
                    end
                end
            end) (combine (seq 0 (length factor_indices)) factor_indices)
      end
  end.

(** Cell 2: the record decoded in the notebook. *)
Definition example_params : list (string * pyval) :=
  [("encoded_id", VInt 2727%Z);
   (weight_name 1, VInt 3%Z); (ascending_name 1, VBool false);
   (weight_name 2, VInt 1%Z); (ascending_name 2, VBool true);
   (weight_name 3, VInt 1%Z); (ascending_name 3, VBool false)].

End ConvertParam.

(** * [125_1/5_bayesian_optuna_custom_6.ipynb]: six freely chosen factors *)

Module Custom6.

Local Open Scope string_scope.
Import Notebook.

(** Cell 3: the factor list (59 entries; ['amount'] at positions 7 and 14). *)
Definition factors : list string :=
  ["pre_close"; "open"; "high"; "low"; "close"; "pct_chg"; "vol";
   "amount"; "volatility_stk"; "mod_conv_prem"; "remain_cap"; "conv_prem";
   "turnover"; "theory_value"; "amount"; "option_value"; "dblow";
   "theory_bias"; "ytm"; "cap_mv_rate"; "pure_value"; "bond_prem";
   "remain_size"; "theory_conv_prem"; "pb"; "pe_ttm"; "ps_ttm";
   "pc1"; "pc3"; "pc5"; "pc7"; "rsi1";
   "rsi3"; "rsi5"; "rsi7"; "stoch1"; "stoch_signal1"; "stoch2";
   "stoch_signal2"; "stoch3"; "stoch_signal3"; "macd"; "macd_signal";
   "macd_diff"; "adx7"; "adx14"; "momentum3"; "momentum6"; "momentum12";
   "velocity3"; "velocity5"; "velocity7"; "pvt"; "volatility_stk5";
   "volatility_stk10"; "volatility_stk20"; "trend_strength"; "dema5";
   "dema21"].

Definition id_name (i : nat) : string := "factor" ++ py_str_nat i ++ "_id".

(** The names [factor1_id .. factor6_id], in the order they are suggested. *)
Definition id_names : list string := map id_name (seq 1 6).

(** The loop [for i in range(1, 7)] of [objective]: for each factor id it
    looks up the name ([IndexError] before anything else is suggested), then
    suggests the weight and the direction.  It returns the parameter names it
    suggested and the [rank_factors] list, or [None] if [factors[...]]
    raised. *)
Fixpoint rank_loop (suggest_categorical : string -> pyval) (ids : list Z) (i : nat)
    : list string * option (list factor_info) :=
  match ids with
  | [] => ([], Some [])
  | id :: rest =>
      match py_index factors id with
      | None => ([], None)
      | Some nm =>
          let w := suggest_categorical (weight_name i) in
          let a := suggest_categorical (ascending_name i) in
          let '(tr, r) := rank_loop suggest_categorical rest (S i) in
          (weight_name i :: ascending_name i :: tr,
           match r with Some l => Some (mk_factor_info nm w a :: l) | None => None end)
      end
  end.

(** Cell 4: [objective(trial)].  [suggest_int n] and [suggest_categorical n]
    are the values the sampler returns for the parameter named [n]; the result
    pairs the names suggested, in order, with the returned value or the
    exception raised. *)
Definition objective (cal_cagr : list factor_info -> Py.exc + Q)
    (suggest_int : string -> Z) (suggest_categorical : string -> pyval)
    : list string * (Py.exc + Q) :=
  let factor_ids := map suggest_int id_names in
  if Nat.ltb (length (nodup Z.eq_dec factor_ids)) 6 then (id_names, inr (-1000000 # 1)%Q)
  else
    let '(tr, r) := rank_loop suggest_categorical factor_ids 1 in
    ((id_names ++ tr)%list,
     match r with
     | None => inl Py.IndexError
     | Some rank_factors => cal_cagr rank_factors
     end).

(** The [trial.params] dictionary of a trial that suggested the names [tr]. *)
Definition trial_params (suggest_int : string -> Z) (suggest_categorical : string -> pyval)
    (tr : list string) : list (string * pyval) :=
  map (fun n => (n, if existsb (String.eqb n) id_names then VInt (suggest_int n)
                    else suggest_categorical n)) tr.

(** Cell 7: [transform_params(best_params, factors)]. *)
Definition transform_params (best_params : list (string * pyval)) (factors : list string)
    : Py.exc + list factor_info :=
  Py.map_exc (fun i =>
    match Py.getitem best_params (id_name i) with
    | inl e => inl e
    | inr fid =>
        match Py.list_getitem factors fid with
        | inl e => inl e
        | inr nm =>
            match Py.getitem best_params (weight_name i) with
            | inl e => inl e
            | inr w =>
                match Py.getitem best_params (ascending_name i) with
                | inl e => inl e
                | inr a => inr (mk_factor_info nm w (VBool (negb (Py.truth a))))
                end
            end
        end
    end) (seq 1 6).

End Custom6.

(** * [optimize/bayesian_optimize.ipynb]: Gaussian-process search over factor ids *)

Module GpOptimize.

Local Open Scope string_scope.
Import Notebook.

(** Cell 4: the factor list (the same 27 names as [convert_param.ipynb]). *)
Definition factors : list string := ConvertParam.factors.

(** Cell 4: the names of the twelve dimensions of [space], in order. *)
Definition space_names : list string :=
  flat_map (fun i => [ "factor" ++ py_str_nat i ++ "_id"; weight_name i; ascending_name i ])
           (seq 1 4).

(** Cell 5: [cached_objective(...)].  [lru_cache] only memoises the result of
    the same arguments, so the value is that of the body.  [params = locals()]
    is the dictionary of the nine arguments. *)
Definition cached_objective (cal_cagr : list factor_info -> Py.exc + Q)
    (factor1_id factor2_id factor3_id : pyval)
    (factor1_weight factor2_weight factor3_weight : pyval)
    (factor1_ascending factor2_ascending factor3_ascending : pyval) : Py.exc + Q :=
  let factor_ids := [factor1_id; factor2_id; factor3_id] in
  if Nat.ltb (length (nodup Py.hash_key_eq_dec (map Py.hash_key factor_ids))) 3
  then inr (1000000 # 1)%Q
  else
    let params : list (string * pyval) :=
      [("factor1_id", factor1_id); ("factor2_id", factor2_id);
       ("factor3_id", factor3_id);
       (weight_name 1, factor1_weight); (weight_name 2, factor2_weight);
       (weight_name 3, factor3_weight);
       (ascending_name 1, factor1_ascending); (ascending_name 2, factor2_ascending);
       (ascending_name 3, factor3_ascending)] in
    match Py.map_exc (fun i =>
            match nth_error factor_ids (i - 1) with
            | None => inl Py.IndexError
            | Some fid =>
                match Py.list_getitem factors fid with
                | inl e => inl e
                | inr nm =>
                    match Py.getitem params (weight_name i) with
                    | inl e => inl e
                    | inr w =>
                        match Py.getitem params (ascending_name i) with
                        | inl e => inl e
                        | inr a => inr (mk_factor_info nm w a)
                        end
                    end
                end
            end) (seq 1 3) with
    | inl e => inl e
    | inr rank_factors =>
        match cal_cagr rank_factors with
        | inl e => inl e
        | inr c => inr (- c)%Q
        end
    end.

(** The keyword arguments [objective] passes to [cached_objective], in order. *)
Definition argument_names : list string :=
  ["factor1_id"; "factor2_id"; "factor3_id";
   weight_name 1; weight_name 2; weight_name 3;
   ascending_name 1; ascending_name 2; ascending_name 3].

(** Cell 6: [objective( **params)] under [use_named_args(space)]: a point [x]
    of another length than [space] raises [ValueError]; otherwise [params] is
    [{dim.name: value for dim, value in zip(space, x)}]. *)
Definition objective (cal_cagr : list factor_info -> Py.exc + Q) (x : list pyval)
    : Py.exc + Q :=
  if negb (Nat.eqb (length x) (length space_names)) then inl Py.ValueError
  else
    let params := combine space_names x in
    match Py.map_exc (Py.getitem params) argument_names with
    | inl e => inl e
    | inr [f1; f2; f3; w1; w2; w3; a1; a2; a3] =>
        cached_objective cal_cagr f1 f2 f3 w1 w2 w3 a1 a2 a3
    | inr _ => inl Py.TypeError
    end.

End GpOptimize.

(** * The launch scripts: [batch_run_opt.sh] -> [run_opt.sh] -> [run_optimizer.sh]

    Shell variables form an environment from names to strings (an unset
    variable reads as the empty string).  Each script parses its arguments
    with a [while [ $# -gt 0 ]; do case "$1" in ... esac; done] loop whose
    arms either take a value ([X="$2"; shift 2]), set a flag
    ([X=...; shift]) or leave the script ([exit]). *)

Module Launch.

Local Open Scope string_scope.

Definition env := string -> string.

Definition empty_env : env := fun _ => "".

(** [x=v]. *)
Definition assign (x v : string) (e : env) : env :=
  fun y => if String.eqb y x then v else e y.

(** One arm of the [case "$1" in] statement. *)
Inductive arm :=
| TakeValue (x : string)          (* x="$2"; shift 2 *)
| SetFlag (x v : string)          (* x=v; shift *)
| ExitWith (code : nat).          (* usage / show_help; exit code *)

(** The loop in a script without [set -u]: with a single argument left,
    [$2] expands to the empty string and [shift 2] fails without shifting, so
    the loop sees the same [$1] again.  [fuel] bounds the number of rounds;
    [None] means the rounds ran out. *)
Fixpoint parse_loop (case_of : string -> arm) (fuel : nat) (args : list string) (e : env)
    : option (nat + env) :=
  match fuel with
  | O => None
  | S fuel' =>
      match args with
      | [] => Some (inr e)
      | a :: rest =>
          match case_of a with
          | TakeValue x =>
              match rest with
              | v :: rest' => parse_loop case_of fuel' rest' (assign x v e)
              | [] => parse_loop case_of fuel' args (assign x "" e)
              end
          | SetFlag x v => parse_loop case_of fuel' rest (assign x v e)
          | ExitWith c => Some (inl c)
          end
      end
  end.

(** The loop under [set -euo pipefail]: reading the unset [$2] makes the
    shell exit with status 1. *)
Fixpoint parse_nounset (case_of : string -> arm) (args : list string) (e : env) : nat + env :=
  match args with
  | [] => inr e
  | a :: rest =>
      match case_of a with
      | TakeValue x =>
          match rest with
          | v :: rest' => parse_nounset case_of rest' (assign x v e)
          | [] => inl 1
          end
      | SetFlag x v => parse_nounset case_of rest (assign x v e)
      | ExitWith c => inl c
      end
  end.

(** Field splitting of an unquoted expansion [${X}] on the default [IFS]
    (space, tab, newline); empty fields vanish.  Pathname expansion is not
    modelled: the values reaching it below contain no [*], [?] or [[]. *)
Definition is_ifs (c : ascii) : bool :=
  Ascii.eqb c " "%char || Ascii.eqb c (Ascii.ascii_of_nat 9) || Ascii.eqb c (Ascii.ascii_of_nat 10).

Fixpoint split_fields (s : string) (cur : string) : list string :=
  match s with
  | EmptyString => if String.eqb cur "" then [] else [cur]
  | String c s' =>
      if is_ifs c then app (if String.eqb cur "" then [] else [cur]) (split_fields s' "")
      else split_fields s' (cur ++ String c EmptyString)
  end.

Definition unquoted (s : string) : list string := split_fields s "".

(** [seq 1 15] prints decimal numbers. *)
Definition dec (n : nat) : string := py_str_nat n.

(** A command run by a script: the program and its arguments. *)
Definition command := (string * list string)%type.

(** ** [batch_run_opt.sh] (the second script of the file) *)

Definition batch_case (a : string) : arm :=
  if String.eqb a "--clear" then SetFlag "CLEAR_RESULTS" "true"
  else if String.eqb a "--mode" || String.eqb a "-m" then TakeValue "MODE"
  else if String.eqb a "--trials" || String.eqb a "-t" then TakeValue "TRIALS"
  else if String.eqb a "--iterations" || String.eqb a "-i" then TakeValue "ITERATIONS"
  else if String.eqb a "--hold" || String.eqb a "-h" then TakeValue "HOLD"
  else if String.eqb a "--factors" || String.eqb a "-f" then TakeValue "FACTORS"
  else if String.eqb a "--enable_filter_opt" then SetFlag "ENABLE_FILTER_OPT" "true"
  else ExitWith 1.

Definition batch_defaults : env :=
  assign "MODE" "continuous" (assign "TRIALS" "5000" (assign "ITERATIONS" "30"
    (assign "HOLD" "5" (assign "FACTORS" "5" (assign "CLEAR_RESULTS" "false" empty_env))))).

(** The [for num in $(seq 1 15)] loop: the fifteen calls of [run_opt.sh]. *)
Definition batch_commands (e : env) : list command :=
  let CLEAR_OPT := if String.eqb (e "CLEAR_RESULTS") "true" then "--clear" else "" in
  map (fun num =>
    ("/root/run_opt.sh",
     concat [["--mode"]; unquoted (e "MODE"); ["--trials"]; unquoted (e "TRIALS");
             ["--iterations"]; unquoted (e "ITERATIONS"); ["--hold"]; unquoted (e "HOLD");
             ["--factors"]; unquoted (e "FACTORS"); ["--num"]; unquoted (dec num);
             unquoted CLEAR_OPT])) (seq 1 15).

(** The whole script, with at most [fuel] rounds of its parsing loop: it
    exits with a status, or runs the fifteen commands. *)
Definition batch_run_opt (fuel : nat) (args : list string) : option (nat + list command) :=
  match parse_loop batch_case fuel args batch_defaults with
  | None => None
  | Some (inl c) => Some (inl c)
  | Some (inr e) => Some (inr (batch_commands e))
  end.

(** ** [run_opt.sh] *)

Definition run_opt_case (a : string) : arm :=
  if String.eqb a "--hold" || String.eqb a "-h" then TakeValue "HOLD"
  else if String.eqb a "--factors" || String.eqb a "-f" then TakeValue "FAC"
  else if String.eqb a "--num" || String.eqb a "-n" then TakeValue "NUM"
  else if String.eqb a "--mode" || String.eqb a "-m" then TakeValue "MODE"
  else if String.eqb a "--iterations" || String.eqb a "-i" then TakeValue "ITERATIONS"
  else if String.eqb a "--trials" || String.eqb a "-t" then TakeValue "TRIALS"
  else if String.eqb a "--clear" then SetFlag "CLEAR_RESULTS" "true"
  else ExitWith 1.

Definition run_opt_defaults : env :=
  assign "HOLD" "" (assign "FAC" "" (assign "NUM" "" (assign "MODE" "continuous"
    (assign "ITERATIONS" "10" (assign "TRIALS" "3000" (assign "CLEAR_RESULTS" "false" empty_env)))))).

(** [[[ "$param" =~ ^[0-9]+$ ]]] (in the C locale). *)
Fixpoint all_digits (s : string) : bool :=
  match s with
  | EmptyString => true
  | String c s' => Nat.leb 48 (nat_of_ascii c) && Nat.leb (nat_of_ascii c) 57 && all_digits s'
  end.

Definition is_number (s : string) : bool := negb (String.eqb s "") && all_digits s.

Definition BASE_DIR : string := "/root/autodl-tmp".

Definition target_dir (e : env) : string :=
  BASE_DIR ++ "/lude_100_150_hold" ++ e "HOLD" ++ "_fac" ++ e "FAC" ++ "_num" ++ e "NUM" ++ "/lude/".

(** The call of [./run_optimizer.sh] at the end of the script. *)
Definition run_opt_command (e : env) : command :=
  let CLEAR_OPT := if String.eqb (e "CLEAR_RESULTS") "true" then "--clear" else "" in
  ("./run_optimizer.sh",
   concat [["-m"]; unquoted (e "MODE");
           ["--method"; "tpe"; "--strategy"; "multistage"; "--start"; "20220729";
            "--end"; "20240809"; "--min"; "100"; "--max"; "200"; "--jobs"; "5";
            "--trials"]; unquoted (e "TRIALS"); ["--hold"]; unquoted (e "HOLD");
           ["--seed-start"; "42"; "--seed-step"; "1000"; "--iterations"];
           unquoted (e "ITERATIONS"); ["--factors"]; unquoted (e "FAC");
           ["-b"; "-l"; "optimization.log"]; unquoted CLEAR_OPT]).

(** The whole script; [dir_exists] tells which directories exist.  It exits
    with a status, or runs [./run_optimizer.sh] inside [target_dir]. *)
Definition run_opt (dir_exists : string -> bool) (args : list string) : nat + command :=
  if Nat.eqb (length args) 0 then inl 1
  else
    match parse_nounset run_opt_case args run_opt_defaults with
    | inl c => inl c
    | inr e =>
        if String.eqb (e "HOLD") "" || String.eqb (e "FAC") "" || String.eqb (e "NUM") ""
        then inl 1
        else if negb (String.eqb (e "MODE") "single") && negb (String.eqb (e "MODE") "continuous")
        then inl 1
        else if negb (forallb is_number [e "HOLD"; e "FAC"; e "NUM"; e "ITERATIONS"; e "TRIALS"])
        then inl 1
        else if negb (dir_exists (target_dir e)) then inl 1
        else inr (run_opt_command e)
    end.

(** ** [run_optimizer.sh] *)

Definition optimizer_case (a : string) : arm :=
  if String.eqb a "-m" || String.eqb a "--mode" then TakeValue "MODE"
  else if String.eqb a "-s" || String.eqb a "--strategy" then TakeValue "STRATEGY"
  else if String.eqb a "--method" then TakeValue "METHOD"
  else if String.eqb a "--trials" then TakeValue "N_TRIALS"
  else if String.eqb a "--factors" then TakeValue "N_FACTORS"
  else if String.eqb a "--start" then TakeValue "START_DATE"
  else if String.eqb a "--end" then TakeValue "END_DATE"
  else if String.eqb a "--min" then TakeValue "PRICE_MIN"
  else if String.eqb a "--max" then TakeValue "PRICE_MAX"
  else if String.eqb a "--hold" then TakeValue "HOLD_NUM"
  else if String.eqb a "--jobs" then TakeValue "N_JOBS"
  else if String.eqb a "--seed" then TakeValue "SEED"
  else if String.eqb a "--seed-start" then TakeValue "SEED_START"
  else if String.eqb a "--seed-step" then TakeValue "SEED_STEP"
  else if String.eqb a "--iterations" then TakeValue "ITERATIONS"
  else if String.eqb a "-b" || String.eqb a "--background" then SetFlag "BACKGROUND" "true"
  else if String.eqb a "-l" || String.eqb a "--log" then TakeValue "LOG_FILE"
  else if String.eqb a "--clear" then SetFlag "CLEAR_RESULTS" "true"
  else if String.eqb a "--stop" then SetFlag "ACTION" "stop"
  else if String.eqb a "--status" then SetFlag "ACTION" "status"
  else if String.eqb a "-h" || String.eqb a "--help" then ExitWith 0
  else ExitWith 1.

Definition optimizer_defaults : env :=
  assign "MODE" "single" (assign "STRATEGY" "domain" (assign "METHOD" "tpe"
  (assign "N_TRIALS" "3000" (assign "N_FACTORS" "4" (assign "START_DATE" "20220729"
  (assign "END_DATE" "20250328" (assign "PRICE_MIN" "100" (assign "PRICE_MAX" "150"
  (assign "HOLD_NUM" "5" (assign "N_JOBS" "15" (assign "SEED" "42"
  (assign "SEED_START" "42" (assign "SEED_STEP" "1000" (assign "ITERATIONS" "10"
  (assign "BACKGROUND" "false" (assign "LOG_FILE" "" (assign "CLEAR_RESULTS" "false"
  (assign "ACTION" "run" empty_env)))))))))))))))))).

(** [build_command]: the command line [CMD]; [WORKSPACE_ID] comes from the
    project directory. *)
Definition build_command (workspace_id : string) (e : env) : string :=
  if String.eqb (e "MODE") "single" then
    "python -m lude.optimization.domain_knowledge_optimizer --strategy " ++ e "STRATEGY"
    ++ " --method " ++ e "METHOD" ++ " --n_trials " ++ e "N_TRIALS"
    ++ " --n_factors " ++ e "N_FACTORS" ++ " --start_date " ++ e "START_DATE"
    ++ " --end_date " ++ e "END_DATE" ++ " --price_min " ++ e "PRICE_MIN"
    ++ " --price_max " ++ e "PRICE_MAX" ++ " --hold_num " ++ e "HOLD_NUM"
    ++ " --n_jobs " ++ e "N_JOBS" ++ " --seed " ++ e "SEED"
    ++ " --workspace_id " ++ workspace_id
  else
    "python -m lude.optimization.continuous_optimizer --iterations " ++ e "ITERATIONS"
    ++ " --strategy " ++ e "STRATEGY" ++ " --method " ++ e "METHOD"
    ++ " --n_trials " ++ e "N_TRIALS" ++ " --n_factors " ++ e "N_FACTORS"
    ++ " --start_date " ++ e "START_DATE" ++ " --end_date " ++ e "END_DATE"
    ++ " --price_min " ++ e "PRICE_MIN" ++ " --price_max " ++ e "PRICE_MAX"
    ++ " --hold_num " ++ e "HOLD_NUM" ++ " --n_jobs " ++ e "N_JOBS"
    ++ " --seed_start " ++ e "SEED_START" ++ " --seed_step " ++ e "SEED_STEP"
    ++ " --workspace_id " ++ workspace_id.

(** What the script does after parsing. *)
Inductive optimizer_outcome :=
| OExit (code : nat)
| OStop                                        (* stop_optimizer; exit $? *)
| OStatus                                      (* check_status; exit $? *)
| ORun (background : bool) (log_file : string) (cmd : string).

(** The script after its parsing loop.  [timestamp] is the output of
    [date +"%Y%m%d_%H%M%S"], [confirm] the line answered to the
    confirmation prompt of a foreground run.  [check_results_dir] only
    touches the results directory and is not modelled. *)
Definition optimizer_main (workspace_id timestamp confirm : string) (e : env)
    : optimizer_outcome :=
  if negb (String.eqb (e "MODE") "single") && negb (String.eqb (e "MODE") "continuous")
  then OExit 1
  else
    let LOG_FILE :=
      if String.eqb (e "BACKGROUND") "true" && String.eqb (e "LOG_FILE") ""
      then "optimization_" ++ e "STRATEGY" ++ "_" ++ timestamp ++ ".log"
      else e "LOG_FILE" in
    if String.eqb (e "ACTION") "stop" then OStop
    else if String.eqb (e "ACTION") "status" then OStatus
    else
      let CMD := build_command workspace_id e in
      if String.eqb (e "BACKGROUND") "false" &&
         negb (String.eqb (if String.eqb confirm "" then "y" else confirm) "y")
      then OExit 0
      else ORun (String.eqb (e "BACKGROUND") "true") LOG_FILE CMD.

Definition run_optimizer (workspace_id timestamp confirm : string) (fuel : nat)
    (args : list string) : option optimizer_outcome :=
  match parse_loop optimizer_case fuel args optimizer_defaults with
  | None => None
  | Some (inl c) => Some (OExit c)
  | Some (inr e) => Some (optimizer_main workspace_id timestamp confirm e)
  end.

End Launch.

(** * Auxiliary definitions used in the proofs below *)

Module Helpers.

Local Open Scope string_scope.
Import Notebook.

(** The two entries [flexible_decode_combination] reads for the factor at
    position [i] of a decoded combination. *)
Definition entry (ws asc : list pyval) (i : nat) : list (string * pyval) :=
  [(weight_name (i + 1), nth i ws (VInt 0)); (ascending_name (i + 1), nth i asc (VBool false))].

(** Two positions of a name list naming the same factor, as a finite check. *)
Definition same_name_pairs (f : list string) : list (nat * nat) :=
  flat_map (fun i => map (fun j => (i, j))
     (filter (fun j => Nat.ltb i j && String.eqb (nth i f "") (nth j f "")) (seq 0 (length f))))
   (seq 0 (length f)).

(** The parameters the ranking loop of the custom-6 notebook suggests from
    position [i] on, and the factor records it builds from the ids. *)
Definition suggested_names (i n : nat) : list string :=
  flat_map (fun k => [weight_name k; ascending_name k]) (seq i n).

Definition ranked (sc : string -> pyval) (i : nat) (ids : list Z) : list factor_info :=
  map (fun '(k, z) => mk_factor_info (nth (Z.to_nat z) Custom6.factors "")
                        (sc (weight_name k)) (sc (ascending_name k)))
      (combine (seq i (length ids)) ids).

(** Two shell environments that differ at most at [k]. *)
Definition agree_except (k : string) (e1 e2 : Launch.env) : Prop :=
  forall y, y <> k -> e1 y = e2 y.

Definition same_outcome (k : string) (r1 r2 : option (nat + Launch.env)) : Prop :=
  match r1, r2 with
  | None, None => True
  | Some (inl c1), Some (inl c2) => c1 = c2
  | Some (inr e1), Some (inr e2) => agree_except k e1 e2
  | _, _ => False
  end.

End Helpers.

(** * Sample inputs *)

Module Samples.

Local Open Scope string_scope.
Import Notebook.

(** A notebook record whose [encoded_id] counts from the end of the list. *)
Definition negative_id_params (k : string) : option pyval :=
  if String.eqb k "encoded_id" then Some (VInt (-2599)) else dict_get example_params k.

(** A [convert_param] record for combination 1878, positions (7, 14, 15). *)
Definition amount_params : list (string * pyval) :=
  [("encoded_id", VInt 1878);
   (weight_name 1, VInt 1); (ascending_name 1, VBool true);
   (weight_name 2, VInt 2); (ascending_name 2, VBool false);
   (weight_name 3, VInt 3); (ascending_name 3, VBool true)].

(** A scorer that returns [1] for any ranking. *)
Definition constant_scorer (_ : list factor_info) : Py.exc + Q := inr 1%Q.

(** [trial.suggest_int] answers for the six id parameters of the custom-6
    notebook, and [trial.suggest_categorical] answers. *)
Definition custom6_ids (k : string) : Z :=
  if String.eqb k "factor1_id" then 7%Z
  else if String.eqb k "factor2_id" then 14%Z
  else if String.eqb k "factor3_id" then 0%Z
  else if String.eqb k "factor4_id" then 20%Z
  else if String.eqb k "factor5_id" then 30%Z
  else if String.eqb k "factor6_id" then 58%Z
  else 0%Z.

Definition custom6_choices (k : string) : pyval :=
  if existsb (String.eqb k) (map weight_name (seq 1 6)) then VInt 1
  else if String.eqb k (ascending_name 2) then VBool false
  else VBool true.


Definition run_opt_args : list string :=
  ["--hold"; "5"; "--factors"; "3"; "--num"; "1"; "--mode"; "single"].

Definition run_opt_call : Launch.command :=
  match Launch.run_opt (fun _ => true) run_opt_args with
  | inr c => c
  | inl _ => ("", [])
  end.

End Samples.

(** * Proofs *)

(** ** General facts about [combinations] and [map_opt] *)

Lemma combinations_length {A} (l : list A) k c :
  In c (combinations l k) -> length c = k.
Proof.
  revert k c; induction l as [|x xs IH]; intros [|k] c Hin; simpl in Hin.
  - destruct Hin as [<-|[]]; reflexivity.
  - destruct Hin.
  - destruct Hin as [<-|[]]; reflexivity.
  - apply in_app_or in Hin as [Hin|Hin].
    + apply in_map_iff in Hin as (c' & <- & Hc'). simpl; f_equal; now apply IH.
    + now apply IH.
Qed.

Lemma combinations_incl {A} (l : list A) k c :
  In c (combinations l k) -> forall y, In y c -> In y l.
Proof.
  revert k c; induction l as [|x xs IH]; intros [|k] c Hin y Hy; simpl in Hin.
  - destruct Hin as [<-|[]]; destruct Hy.
  - destruct Hin.
  - destruct Hin as [<-|[]]; destruct Hy.
  - apply in_app_or in Hin as [Hin|Hin].
    + apply in_map_iff in Hin as (c' & <- & Hc').
      destruct Hy as [->|Hy]; [now left|right; eapply IH; eauto].
    + right; eapply IH; eauto.
Qed.

Lemma combinations_nodup {A} (l : list A) k c :
  NoDup l -> In c (combinations l k) -> NoDup c.
Proof.
  revert k c; induction l as [|x xs IH]; intros [|k] c Hnd Hin; simpl in Hin.
  - destruct Hin as [<-|[]]; constructor.
  - destruct Hin.
  - destruct Hin as [<-|[]]; constructor.
  - inversion Hnd as [|? ? Hx Hxs]; subst.
    apply in_app_or in Hin as [Hin|Hin].
    + apply in_map_iff in Hin as (c' & <- & Hc').
      constructor; [|eapply IH; eauto].
      intros Hc. apply Hx. eapply combinations_incl; eauto.
    + eapply IH; eauto.
Qed.

Lemma nodupb_spec l : nodupb l = true -> NoDup l.
Proof.
  induction l as [|x xs IH]; simpl; intros H; [constructor|].
  apply andb_prop in H as [H1 H2]. constructor; [|now apply IH].
  intros Hin. apply negb_true_iff in H1.
  assert (existsb (String.eqb x) xs = true) as Hc.
  { apply existsb_exists. exists x; split; [exact Hin|apply String.eqb_refl]. }
  congruence.
Qed.

Lemma map_opt_length {A B} (f : A -> option B) l l' :
  map_opt f l = Some l' -> length l' = length l.
Proof.
  revert l'; induction l as [|x xs IH]; intros l' H; simpl in H.
  - now inversion H.
  - destruct (f x); [|discriminate].
    destruct (map_opt f xs) eqn:E; [|discriminate].
    inversion H; subst; simpl; f_equal; now apply IH.
Qed.

Module NotebookFacts.
Import Notebook.

Lemma combinations_nb_in c :
  In c combinations_nb -> length c = num_factors /\ forall x, In x c -> x < length factors.
Proof.
  unfold combinations_nb; intros Hin; split.
  - exact (combinations_length _ _ _ Hin).
  - intros x Hx. pose proof (combinations_incl _ _ _ Hin x Hx) as Hs.
    apply in_seq in Hs; lia.
Qed.

Lemma factors_nth_some x : x < length factors -> exists nm, nth_error factors x = Some nm.
Proof.
  intros H. destruct (nth_error factors x) eqn:E; [eauto|].
  apply nth_error_None in E; lia.
Qed.

Lemma factors_nodup : NoDup factors.
Proof. apply nodupb_spec. vm_compute. reflexivity. Qed.

Lemma combinations_nb_nodup c : In c combinations_nb -> NoDup c.
Proof. unfold combinations_nb; intros Hin. exact (combinations_nodup _ _ _ (seq_NoDup _ _) Hin). Qed.

Lemma length_combinations_nb : length combinations_nb = 2600.
Proof. vm_compute. reflexivity. Qed.

(** The three-element combinations, decoded through [factors]. *)
Lemma combination_cases eid c :
  nth_error combinations_nb eid = Some c ->
  exists x y z nx ny nz, c = [x; y; z] /\
    nth_error factors x = Some nx /\ nth_error factors y = Some ny /\
    nth_error factors z = Some nz.
Proof.
  intros E. apply nth_error_In in E. apply combinations_nb_in in E as [Hl Hb].
  destruct c as [|x [|y [|z [|w c]]]]; simpl in Hl; try discriminate.
  destruct (factors_nth_some x) as [nx Hx]; [apply Hb; simpl; tauto|].
  destruct (factors_nth_some y) as [ny Hy]; [apply Hb; simpl; tauto|].
  destruct (factors_nth_some z) as [nz Hz]; [apply Hb; simpl; tauto|].
  exists x, y, z, nx, ny, nz; auto.
Qed.

Lemma objective_rank_factors_nodup suggest rf :
  objective_rank_factors suggest = Some rf -> NoDup (map fi_name rf).
Proof.
  unfold objective_rank_factors, encoded_combinations.
  destruct (suggest "encoded_id"%string) as [eid| |]; try discriminate.
  destruct (eid <? 0)%Z; [discriminate|].
  destruct (nth_error combinations_nb (Z.to_nat eid)) as [c|] eqn:E; [|discriminate].
  pose proof (combinations_nb_nodup c (nth_error_In _ _ E)) as Hnd.
  destruct (combination_cases _ _ E) as (x & y & z & nx & ny & nz & -> & Hx & Hy & Hz).
  unfold decode_combination. cbn [map_opt]. rewrite Hx, Hy, Hz.
  cbn [num_factors seq map_opt nth_error]. intros H. injection H as <-. cbn [map fi_name].
  assert (Hinj : forall a b na nb, nth_error factors a = Some na ->
            nth_error factors b = Some nb -> a <> b -> na <> nb).
  { intros a b na nb Ha Hb Hab Heq. subst nb. apply Hab.
    eapply NoDup_nth_error; [exact factors_nodup| |congruence].
    apply nth_error_Some; congruence. }
  inversion Hnd as [|? ? Hx' Hnd']; subst. inversion Hnd' as [|? ? Hy' _]; subst.
  assert (nx <> ny) by (apply (Hinj x y); auto; intros ->; apply Hx'; simpl; tauto).
  assert (nx <> nz) by (apply (Hinj x z); auto; intros ->; apply Hx'; simpl; tauto).
  assert (ny <> nz) by (apply (Hinj y z); auto; intros ->; apply Hy'; simpl; tauto).
  repeat constructor; simpl; intros Hc; repeat destruct Hc as [Hc|Hc]; congruence.
Qed.

End NotebookFacts.

(** C10: for a parameter record with a valid [encoded_id] and the entries
    [factor{i}_weight] / [factor{i}_ascending] for [i = 1 .. num_factors],
    [flexible_decode_combination] returns exactly the [rank_factors] list that
    [objective] builds from the same parameter values (and does not raise). *)
Theorem flexible_decode_roundtrip
    (encoded_params : string -> option pyval) (suggest : string -> pyval) (eid : Z)
    (Hid : suggest "encoded_id"%string = VInt eid)
    (Hrec_id : encoded_params "encoded_id"%string = Some (VInt eid))
    (Hrange : (0 <= eid < Z.of_nat (length Notebook.combinations_nb))%Z)
    (Hrec : forall i, 1 <= i <= Notebook.num_factors ->
       encoded_params (Notebook.weight_name i) = Some (suggest (Notebook.weight_name i)) /\
       encoded_params (Notebook.ascending_name i) = Some (suggest (Notebook.ascending_name i))) :
  Notebook.flexible_decode_combination encoded_params = Notebook.objective_rank_factors suggest /\
  Notebook.objective_rank_factors suggest <> None.
Proof.
  unfold Notebook.flexible_decode_combination, Notebook.objective_rank_factors,
    Notebook.encoded_combinations, py_index.
  rewrite Hid, Hrec_id.
  assert (Hneg : (eid <? 0)%Z = false) by (apply Z.ltb_ge; lia).
  rewrite Hneg.
  destruct (nth_error Notebook.combinations_nb (Z.to_nat eid)) as [c|] eqn:E.
  2:{ apply nth_error_None in E. lia. }
  destruct (NotebookFacts.combination_cases _ _ E)
    as (x & y & z & nx & ny & nz & -> & Hx & Hy & Hz).
  destruct (Hrec 1) as [W1 A1]; [unfold Notebook.num_factors; lia|].
  destruct (Hrec 2) as [W2 A2]; [unfold Notebook.num_factors; lia|].
  destruct (Hrec 3) as [W3 A3]; [unfold Notebook.num_factors; lia|].
  unfold Notebook.decode_combination. cbn [map_opt combine seq length Nat.add].
  rewrite Hx, Hy, Hz. cbn [nth_error Notebook.num_factors seq map_opt Nat.add].
  rewrite W1, A1, W2, A2, W3, A3.
  split; [reflexivity|discriminate].
Qed.

Lemma flexible_decode_roundtrip_witness :
  Notebook.flexible_decode_combination (dict_get Notebook.example_params) =
  Notebook.objective_rank_factors Notebook.example_suggest /\
  Notebook.objective_rank_factors Notebook.example_suggest <> None.
Proof.
  apply (flexible_decode_roundtrip (dict_get Notebook.example_params)
           Notebook.example_suggest 1000%Z).
  - vm_compute. reflexivity.
  - vm_compute. reflexivity.
  - rewrite NotebookFacts.length_combinations_nb. simpl. lia.
  - intros i Hi. unfold Notebook.num_factors in Hi.
    destruct i as [|[|[|[|]]]]; try lia; split; vm_compute; reflexivity.
Defined.

Module MultistageFacts.
Import Multistage.
Local Open Scope string_scope.

(** *** Parameter names *)

Lemma sampleAll_names pool suggest :
  map fst (sampleAll pool suggest) = param_names pool.
Proof. unfold sampleAll. rewrite map_map. apply map_id. Qed.

Lemma set_param_names n v p : map fst (set_param n v p) = map fst p.
Proof.
  unfold set_param. induction p as [|[k x] p IH]; simpl; [reflexivity|].
  destruct (String.eqb k n); simpl; f_equal; exact IH.
Qed.

Lemma guide_param_names n pref p s :
  map fst (fst (guide_param n pref p s)) = map fst p.
Proof.
  destruct s as [g i]. unfold guide_param, mbind, mret, draw; simpl.
  destruct pref as [v|]; [|reflexivity].
  destruct (Qltb (g i) guidanceProbability); [apply set_param_names|reflexivity].
Qed.

Lemma guide_factors_names F pool p s :
  map fst (fst (guide_factors F pool p s)) = map fst p.
Proof.
  revert p s; induction pool as [|f fs IH]; intros p s; [reflexivity|].
  cbn [guide_factors]. unfold mbind.
  pose proof (guide_param_names ("weight_" ++ f)
                (option_map VInt (preferred_weight F f)) p s) as H1.
  destruct (guide_param ("weight_" ++ f) (option_map VInt (preferred_weight F f)) p s)
    as [p1 s1].
  pose proof (guide_param_names ("ascending_" ++ f)
                (option_map VBool (preferred_direction F f)) p1 s1) as H2.
  destruct (guide_param ("ascending_" ++ f) (option_map VBool (preferred_direction F f)) p1 s1)
    as [p2 s2].
  rewrite IH. simpl in *. congruence.
Qed.

Lemma guided_adjust_names F pool p s :
  map fst (fst (guided_adjust F pool p s)) = map fst p.
Proof.
  unfold guided_adjust, mbind.
  pose proof (guide_param_names "primary_strategy"
                (option_map VStr (preferred_strategy F)) p s) as H1.
  destruct (guide_param "primary_strategy" (option_map VStr (preferred_strategy F)) p s)
    as [p1 s1].
  rewrite guide_factors_names. exact H1.
Qed.

Lemma run_trial_names ph cat scorer suggest s :
  map fst (fst (fst (run_trial ph cat scorer suggest s))) = param_names (factor_pool cat).
Proof.
  destruct ph as [|F]; simpl.
  - apply sampleAll_names.
  - destruct s as [g i]. unfold mbind, draw; simpl.
    destruct (route (g i)); simpl.
    + apply sampleAll_names.
    + destruct (guided_adjust F (factor_pool cat) (sampleAll (factor_pool cat) suggest) (g, S i))
        as [p' s'] eqn:E.
      simpl.
      pose proof (guided_adjust_names F (factor_pool cat)
                    (sampleAll (factor_pool cat) suggest) (g, S i)) as H.
      rewrite E in H. simpl in H. rewrite H. apply sampleAll_names.
Qed.

(** *** Distinctness of the declared names *)

Lemma append_cancel_l (pre a b : string) : pre ++ a = pre ++ b -> a = b.
Proof.
  induction pre as [|c pre IH]; simpl; [auto|].
  intros H. injection H. exact IH.
Qed.

Lemma factor_param_names_inj f g n :
  In n (factor_param_names f) -> In n (factor_param_names g) -> f = g.
Proof.
  unfold factor_param_names.
  intros Hf Hg.
  destruct Hf as [<-|[<-|[<-|[<-|[]]]]];
  destruct Hg as [Hg|[Hg|[Hg|[Hg|[]]]]];
  solve [ symmetry; eapply append_cancel_l; exact Hg | discriminate Hg ].
Qed.

Lemma factor_param_names_nodup f : NoDup (factor_param_names f).
Proof.
  unfold factor_param_names.
  repeat constructor; simpl; intros H;
    repeat (destruct H as [H|H]; [discriminate H|]); exact H.
Qed.

Lemma base_not_factor n f :
  In n base_param_names -> ~ In n (factor_param_names f).
Proof.
  unfold base_param_names, factor_param_names; simpl.
  intros Hb Hf.
  destruct Hb as [<-|[<-|[<-|[<-|[]]]]];
  destruct Hf as [Hf|[Hf|[Hf|[Hf|[]]]]]; discriminate Hf.
Qed.

Lemma param_names_nodup pool : NoDup pool -> NoDup (param_names pool).
Proof.
  intros Hnd. unfold param_names. apply NoDup_app.
  - unfold base_param_names.
    repeat constructor; simpl; intros H;
      repeat (destruct H as [H|H]; [discriminate H|]); exact H.
  - induction pool as [|f fs IH]; cbn [flat_map]; [constructor|].
    inversion Hnd as [|? ? Hf Hfs]; subst.
    apply NoDup_app; [apply factor_param_names_nodup|now apply IH|].
    intros n H1 H2. apply in_flat_map in H2 as (g & Hg & H2).
    apply Hf. rewrite (factor_param_names_inj _ _ _ H1 H2). exact Hg.
  - intros n Hb Hin. apply in_flat_map in Hin as (f & _ & Hin).
    exact (base_not_factor _ _ Hb Hin).
Qed.

Lemma param_names_length pool : length (param_names pool) = 4 + 4 * length pool.
Proof.
  unfold param_names. rewrite length_app.
  induction pool as [|f fs IH]; cbn [flat_map length] in *; [reflexivity|].
  rewrite length_app. unfold factor_param_names, base_param_names in *.
  cbn [length] in *. lia.
Qed.

(** *** Decode *)

Lemma dbind_ok {A B} (c : DecodeResult A) (k : A -> DecodeResult B) b :
  dbind c k = DOk b -> exists a, c = DOk a /\ k a = DOk b.
Proof. destruct c; simpl; try discriminate. eauto. Qed.

Ltac dpeel H :=
  repeat match type of H with
  | dbind ?c ?k = DOk _ =>
      let x := fresh "x" in let Hx := fresh "Hx" in
      apply dbind_ok in H as (x & Hx & H);
      lazymatch type of x with
      | (_ * _)%type => destruct x
      | _ => idtac
      end;
      cbv beta iota in H
  end.

Lemma mem_In f l : mem f l = true <-> In f l.
Proof.
  unfold mem. rewrite existsb_exists. split.
  - intros (g & Hg & E). apply String.eqb_eq in E. now subst.
  - intros H. exists f. split; [exact H|apply String.eqb_refl].
Qed.

Lemma candidate_set_nodup cat p c : candidate_set cat p = DOk c -> NoDup c.
Proof.
  unfold candidate_set. intros H. dpeel H.
  injection H as <-. apply NoDup_nodup.
Qed.

Lemma attach_weights_names p c rc :
  attach_weights p c = DOk rc -> factor_names rc = c.
Proof.
  revert rc; induction c as [|f fs IH]; intros rc H; cbn [attach_weights] in H.
  - injection H as <-. reflexivity.
  - dpeel H. injection H as <-. cbn. f_equal. now apply IH.
Qed.

Lemma decode_ok cat p rc :
  decode cat p = DOk rc ->
  exists c, candidate_set cat p = DOk c /\
    min_core_factors cat <= length c <= max_mixed_factors cat /\
    has_conflict cat c = false /\ factor_names rc = c.
Proof.
  unfold decode. intros H. dpeel H. exists x. split; [exact Hx|].
  destruct (Nat.leb (min_core_factors cat) (length x)) eqn:E1;
  destruct (Nat.leb (length x) (max_mixed_factors cat)) eqn:E2;
  simpl in H; try discriminate.
  apply Nat.leb_le in E1, E2.
  destruct (has_conflict cat x) eqn:E3; [discriminate|].
  repeat split; try lia. eapply attach_weights_names; exact H.
Qed.

Lemma has_conflict_false cat c a b :
  has_conflict cat c = false -> In (a, b) (factor_conflicts cat) ->
  ~ (In a c /\ In b c).
Proof.
  unfold has_conflict. intros H Hin [Ha Hb].
  assert (existsb (fun '(a, b) => mem a c && mem b c) (factor_conflicts cat) = true) as Hc.
  { apply existsb_exists. exists (a, b). split; [exact Hin|].
    apply andb_true_intro; split; now apply mem_In. }
  congruence.
Qed.

Lemma factor_names_length rc : length (factor_names rc) = length rc.
Proof. apply length_map. Qed.

(** *** Trials and routing *)

Lemma run_trial_objective ph cat scorer suggest s :
  snd (fst (run_trial ph cat scorer suggest s)) =
  objective cat scorer (fst (fst (run_trial ph cat scorer suggest s))).
Proof.
  destruct ph as [|F]; [reflexivity|].
  destruct s as [g i]. unfold run_trial, mbind, draw, mret. cbv beta iota.
  destruct (route (g i)); [reflexivity|].
  destruct (guided_adjust F (factor_pool cat) (sampleAll (factor_pool cat) suggest) (g, S i)).
  reflexivity.
Qed.

Lemma Qltb_iff x y : Qltb x y = true <-> (x < y)%Q.
Proof.
  unfold Qltb. rewrite negb_true_iff. split.
  - intros H. apply Qnot_le_lt. intros Hle. apply Qle_bool_iff in Hle. congruence.
  - intros H. destruct (Qle_bool y x) eqn:E; [|reflexivity].
    apply Qle_bool_iff in E. exfalso. exact (Qlt_not_le _ _ H E).
Qed.

Lemma route_exploration r : route r = Exploration <-> (r < explorationRatio)%Q.
Proof.
  unfold route. rewrite <- Qltb_iff.
  destruct (Qltb r explorationRatio); split; congruence.
Qed.

Lemma count_below c n :
  length (filter (fun k => Nat.ltb k c) (seq 0 n)) = Nat.min c n.
Proof.
  induction n as [|n IH]; [simpl; lia|].
  rewrite seq_S, filter_app, length_app, IH. simpl.
  destruct (Nat.ltb n c) eqn:E; simpl.
  - apply Nat.ltb_lt in E. lia.
  - apply Nat.ltb_ge in E. lia.
Qed.

Lemma grid_route m k :
  0 < m ->
  route (Z.of_nat k # Pos.of_nat (10 * m)) = Exploration <-> k < 3 * m.
Proof.
  intros Hm. rewrite route_exploration. unfold explorationRatio, Qlt.
  cbn [Qnum Qden].
  assert (Zpos (Pos.of_nat (10 * m)) = Z.of_nat (10 * m)) as E.
  { rewrite <- positive_nat_Z. f_equal. apply Nat2Pos.id. lia. }
  rewrite E. lia.
Qed.

(** *** Analysis *)

Lemma insert_desc_perm t l : Permutation (insert_desc t l) (t :: l).
Proof.
  induction l as [|u us IH]; simpl; [reflexivity|].
  destruct (Qltb (score_of u) (score_of t)); [reflexivity|].
  rewrite IH. apply perm_swap.
Qed.

Lemma sort_fold_perm l acc :
  Permutation (fold_left (fun acc t => insert_desc t acc) l acc) (l ++ acc).
Proof.
  revert acc; induction l as [|x xs IH]; intros acc; simpl; [reflexivity|].
  rewrite IH, insert_desc_perm. symmetry. apply Permutation_middle.
Qed.

Lemma sort_desc_perm l : Permutation (sort_desc l) l.
Proof. unfold sort_desc. rewrite sort_fold_perm, app_nil_r. reflexivity. Qed.

Lemma ranks_before_trans_lt t u v :
  ranks_before u v -> (score_of u < score_of t)%Q -> (score_of v < score_of t)%Q.
Proof.
  intros [H|[H _]] Hut.
  - eapply Qlt_trans; eauto.
  - rewrite H. exact Hut.
Qed.

Lemma insert_desc_sorted t l :
  StronglySorted ranks_before l -> (forall y, In y l -> tr_id y < tr_id t) ->
  StronglySorted ranks_before (insert_desc t l).
Proof.
  induction l as [|u us IH]; intros Hs Hid; simpl.
  - repeat constructor.
  - apply StronglySorted_inv in Hs as [Hus Hu].
    destruct (Qltb (score_of u) (score_of t)) eqn:E.
    + apply Qltb_iff in E. constructor; [constructor; assumption|].
      constructor; [left; exact E|].
      eapply Forall_impl; [|exact Hu]. intros v Hv. left.
      exact (ranks_before_trans_lt t u v Hv E).
    + assert (Hle : (score_of t <= score_of u)%Q).
      { apply Qnot_lt_le. intros Hlt. apply Qltb_iff in Hlt. congruence. }
      constructor; [apply IH; auto; intros y Hy; apply Hid; right; exact Hy|].
      apply Forall_forall. intros v Hv.
      apply (Permutation_in _ (insert_desc_perm t us)) in Hv as [<-|Hv].
      * apply Qle_lteq in Hle as [Hlt|Heq]; [left; exact Hlt|].
        right. split; [exact Heq|]. apply Hid. left; reflexivity.
      * rewrite Forall_forall in Hu. now apply Hu.
Qed.

Lemma sort_fold_sorted l acc :
  StronglySorted ranks_before acc ->
  (forall a b, In a acc -> In b l -> tr_id a < tr_id b) ->
  StronglySorted (fun a b => tr_id a < tr_id b) l ->
  StronglySorted ranks_before (fold_left (fun acc t => insert_desc t acc) l acc).
Proof.
  revert acc; induction l as [|x xs IH]; intros acc Hacc Hlt Hl; simpl; [exact Hacc|].
  apply StronglySorted_inv in Hl as [Hxs Hx]. rewrite Forall_forall in Hx.
  apply IH; [| |exact Hxs].
  - apply insert_desc_sorted; [exact Hacc|]. intros y Hy. apply Hlt; [exact Hy|left; reflexivity].
  - intros a b Ha Hb. apply (Permutation_in _ (insert_desc_perm x acc)) in Ha as [<-|Ha].
    + now apply Hx.
    + apply Hlt; [exact Ha|right; exact Hb].
Qed.

Lemma sort_desc_sorted l :
  StronglySorted (fun a b => tr_id a < tr_id b) l -> StronglySorted ranks_before (sort_desc l).
Proof.
  intros H. apply sort_fold_sorted; [constructor| |exact H]. intros a b [].
Qed.

Lemma StronglySorted_filter {A} (R : A -> A -> Prop) (f : A -> bool) l :
  StronglySorted R l -> StronglySorted R (filter f l).
Proof.
  induction l as [|x xs IH]; intros H; simpl; [constructor|].
  apply StronglySorted_inv in H as [Hxs Hx].
  destruct (f x); [|now apply IH].
  constructor; [now apply IH|].
  rewrite Forall_forall in *. intros y Hy. apply filter_In in Hy as [Hy _]. now apply Hx.
Qed.

Lemma StronglySorted_app_rel {A} (R : A -> A -> Prop) l1 l2 t u :
  StronglySorted R (l1 ++ l2) -> In t l1 -> In u l2 -> R t u.
Proof.
  induction l1 as [|x xs IH]; intros H Ht Hu; [destruct Ht|].
  simpl in H. apply StronglySorted_inv in H as [H Hx].
  destruct Ht as [<-|Ht]; [|now apply IH].
  rewrite Forall_forall in Hx. apply Hx, in_or_app. right; exact Hu.
Qed.

Lemma StronglySorted_firstn {A} (R : A -> A -> Prop) n l :
  StronglySorted R l -> StronglySorted R (firstn n l).
Proof.
  intros H. rewrite <- (firstn_skipn n l) in H.
  induction (firstn n l) as [|x xs IH]; [constructor|].
  simpl in H. apply StronglySorted_inv in H as [H Hx].
  constructor; [now apply IH|].
  rewrite Forall_forall in *. intros y Hy. apply Hx, in_or_app. left; exact Hy.
Qed.

Lemma completed_idem trials : completed (completed trials) = completed trials.
Proof.
  unfold completed. induction trials as [|t ts IH]; simpl; [reflexivity|].
  destruct (is_complete t) eqn:E; simpl; [rewrite E; f_equal|]; exact IH.
Qed.

End MultistageFacts.

Open Scope string_scope.

(** C1: in either phase and for any sampler draws and random state, every trial
    samples (and decodes) exactly the same list of parameter names, the fixed
    list [param_names] of the factor pool; only the values differ. *)
Theorem parameter_space_invariance (cat : Multistage.StrategyCatalog)
    (scorer : Multistage.RankedFactorCombination -> Multistage.ScoreResult)
    (ph1 ph2 : Multistage.Phase) (suggest1 suggest2 : string -> pyval)
    (s1 s2 : Multistage.Rng) :
  map fst (fst (fst (Multistage.run_trial ph1 cat scorer suggest1 s1))) =
  map fst (fst (fst (Multistage.run_trial ph2 cat scorer suggest2 s2))) /\
  map fst (Multistage.sampleAll (Multistage.factor_pool cat) suggest1) =
  map fst (Multistage.sampleAll (Multistage.factor_pool cat) suggest2) /\
  map fst (Multistage.sampleAll (Multistage.factor_pool cat) suggest1) =
  Multistage.param_names (Multistage.factor_pool cat).
Proof.
  rewrite !MultistageFacts.run_trial_names, !MultistageFacts.sampleAll_names.
  repeat split.
Qed.

(** C2: a pool of distinct factors declares [4 + 4 * |pool|] distinct parameter
    names; for a pool of 48 factors that is 196. *)
Theorem fixed_parameter_count (pool : list string) (Hnd : NoDup pool) :
  length (Multistage.param_names pool) = 4 + 4 * length pool /\
  NoDup (Multistage.param_names pool) /\
  (length pool = 48 -> length (Multistage.param_names pool) = 196).
Proof.
  split; [apply MultistageFacts.param_names_length|].
  split; [now apply MultistageFacts.param_names_nodup|].
  intros H48. rewrite MultistageFacts.param_names_length, H48. reflexivity.
Qed.

Lemma fixed_parameter_count_witness :
  NoDup Multistage.sample_pool /\ length Multistage.sample_pool = 48 /\
  length (Multistage.param_names Multistage.sample_pool) = 196 /\
  NoDup (Multistage.param_names Multistage.sample_pool).
Proof.
  assert (Hnd : NoDup Multistage.sample_pool) by (apply nodupb_spec; vm_compute; reflexivity).
  destruct (fixed_parameter_count Multistage.sample_pool Hnd) as (_ & Hn & H48).
  split; [exact Hnd|]. split; [reflexivity|].
  split; [apply H48; reflexivity|exact Hn].
Defined.

(** C3: every combination that [decode] returns has between [min_core_factors]
    and [max_mixed_factors] entries; a candidate set whose size is outside these
    bounds makes [decode] prune the trial.  The documented configuration uses the
    bounds 6 and 12. *)
Theorem decode_bounds (cat : Multistage.StrategyCatalog) (p : Multistage.TrialParameters) :
  (forall rc, Multistage.decode cat p = Multistage.DOk rc ->
     Multistage.min_core_factors cat <= length rc <= Multistage.max_mixed_factors cat) /\
  (forall c, Multistage.candidate_set cat p = Multistage.DOk c ->
     ~ (Multistage.min_core_factors cat <= length c <= Multistage.max_mixed_factors cat) ->
     Multistage.decode cat p = Multistage.DPruned) /\
  Multistage.min_core_factors Multistage.sample_catalog = 6 /\
  Multistage.max_mixed_factors Multistage.sample_catalog = 12.
Proof.
  split; [|split; [|split; reflexivity]].
  - intros rc H. destruct (MultistageFacts.decode_ok _ _ _ H) as (c & _ & Hb & _ & Hn).
    rewrite <- MultistageFacts.factor_names_length, Hn. exact Hb.
  - intros c Hc Hout. unfold Multistage.decode. rewrite Hc. cbn [Multistage.dbind].
    destruct (Nat.leb (Multistage.min_core_factors cat) (length c)) eqn:E1;
    destruct (Nat.leb (length c) (Multistage.max_mixed_factors cat)) eqn:E2;
    try reflexivity.
    apply Nat.leb_le in E1, E2. exfalso. apply Hout. split; assumption.
Qed.

(** C4: the factor identifiers of a decoded combination are pairwise distinct
    and no configured conflict pair occurs in it, while a candidate set holding
    a conflict pair is pruned; in the notebook search, the [rank_factors] of a
    trial also name distinct factors. *)
Theorem decode_unique_no_conflict (cat : Multistage.StrategyCatalog)
    (p : Multistage.TrialParameters) :
  (forall rc, Multistage.decode cat p = Multistage.DOk rc ->
     NoDup (Multistage.factor_names rc) /\
     forall a b, In (a, b) (Multistage.factor_conflicts cat) ->
       ~ (In a (Multistage.factor_names rc) /\ In b (Multistage.factor_names rc))) /\
  (forall c, Multistage.candidate_set cat p = Multistage.DOk c ->
     Multistage.has_conflict cat c = true -> Multistage.decode cat p = Multistage.DPruned) /\
  (forall suggest rf, Notebook.objective_rank_factors suggest = Some rf ->
     NoDup (map Notebook.fi_name rf)).
Proof.
  split; [|split].
  - intros rc H. destruct (MultistageFacts.decode_ok _ _ _ H) as (c & Hc & _ & Hk & ->).
    split; [exact (MultistageFacts.candidate_set_nodup _ _ _ Hc)|].
    intros a b Hab. exact (MultistageFacts.has_conflict_false _ _ _ _ Hk Hab).
  - intros c Hc Hk. unfold Multistage.decode. rewrite Hc. cbn [Multistage.dbind].
    rewrite Hk. destruct (negb _); reflexivity.
  - exact NotebookFacts.objective_rank_factors_nodup.
Qed.

(** C5: decoding is deterministic.  A trial's outcome (including the
    combinations handed to the scorer) is the objective evaluated on the
    parameters that reach [decode]; random draws of a run (phase-two routing and
    guidance) only choose those parameters.  Hence two trials, in any phases and
    random states, that decode the same [TrialParameters] get the same outcome,
    and [decode] consumes no random draw. *)
Theorem decode_deterministic :
  (forall ph cat scorer suggest s,
     snd (fst (Multistage.run_trial ph cat scorer suggest s)) =
     Multistage.objective cat scorer (fst (fst (Multistage.run_trial ph cat scorer suggest s)))) /\
  (forall ph1 ph2 cat scorer suggest1 suggest2 s1 s2,
     fst (fst (Multistage.run_trial ph1 cat scorer suggest1 s1)) =
     fst (fst (Multistage.run_trial ph2 cat scorer suggest2 s2)) ->
     snd (fst (Multistage.run_trial ph1 cat scorer suggest1 s1)) =
     snd (fst (Multistage.run_trial ph2 cat scorer suggest2 s2))) /\
  (forall cat scorer p rc,
     Multistage.decode cat p = Multistage.DOk rc ->
     snd (Multistage.objective cat scorer p) = [rc]) /\
  (forall cat scorer p,
     Multistage.decode cat p = Multistage.DPruned ->
     Multistage.objective cat scorer p = (Multistage.TrialPruned, [])).
Proof.
  split; [exact MultistageFacts.run_trial_objective|].
  split; [|split].
  - intros ph1 ph2 cat scorer sg1 sg2 s1 s2 Hp.
    rewrite !MultistageFacts.run_trial_objective, Hp. reflexivity.
  - intros cat scorer p rc H. unfold Multistage.objective. rewrite H.
    destruct (scorer rc); reflexivity.
  - intros cat scorer p H. unfold Multistage.objective. rewrite H. reflexivity.
Qed.

(** C6: with [use_mixed_strategy] set and an invalid primary/secondary pair (the
    primary being a catalog strategy, the domain of [primary_strategy]), the
    trial is pruned and the scorer is never called; every pair of the
    mutually-exclusive list, in either order, is invalid. *)
Theorem mixed_invalid_pruned (cat : Multistage.StrategyCatalog)
    (scorer : Multistage.RankedFactorCombination -> Multistage.ScoreResult)
    (p : Multistage.TrialParameters) (prim sec : string)
    (Hprim : Multistage.get_str p "primary_strategy"%string = Some prim)
    (Hfound : Multistage.getStrategy cat prim <> None)
    (Hmixed : Multistage.get_bool p "use_mixed_strategy"%string = Some true)
    (Hsec : Multistage.get_str p "secondary_strategy"%string = Some sec)
    (Hinvalid : Multistage.isValidCombination cat prim sec = false) :
  Multistage.decode cat p = Multistage.DPruned /\
  Multistage.objective cat scorer p = (Multistage.TrialPruned, []) /\
  (forall a b, In (a, b) (Multistage.exclusive_combinations cat) ->
     Multistage.isValidCombination cat a b = false /\
     Multistage.isValidCombination cat b a = false).
Proof.
  assert (Hd : Multistage.decode cat p = Multistage.DPruned).
  { unfold Multistage.decode, Multistage.candidate_set.
    rewrite Hprim. cbn [Multistage.need Multistage.dbind].
    destruct (Multistage.getStrategy cat prim) as [st|]; [|congruence].
    cbn [Multistage.dbind]. rewrite Hmixed. cbn [Multistage.need Multistage.dbind].
    rewrite Hsec. cbn [Multistage.need Multistage.dbind]. rewrite Hinvalid. reflexivity. }
  split; [exact Hd|split].
  - unfold Multistage.objective. rewrite Hd. reflexivity.
  - intros a b Hin. unfold Multistage.isValidCombination.
    split; apply negb_false_iff, existsb_exists; exists (a, b); split; auto;
      rewrite !String.eqb_refl; simpl; rewrite ?orb_true_r; reflexivity.
Qed.

(** C7: a scorer failure (raised error or timeout) becomes the trial's error,
    never a score; every score a trial reports is the scorer's own answer.  The
    notebook [objective] likewise lets an exception of [cal_cagr] escape and
    returns only values computed by [cal_cagr]. *)
Theorem scorer_failure_propagates :
  (forall cat scorer p rc e,
     Multistage.decode cat p = Multistage.DOk rc -> scorer rc = Multistage.ScoreFailed e ->
     Multistage.objective cat scorer p = (Multistage.TrialErrored e, [rc])) /\
  (forall cat scorer p c,
     fst (Multistage.objective cat scorer p) = Multistage.Scored c ->
     exists rc, Multistage.decode cat p = Multistage.DOk rc /\ scorer rc = Multistage.ScoreOk c) /\
  (forall cal_cagr suggest rf e,
     Notebook.objective_rank_factors suggest = Some rf -> cal_cagr rf = inl e ->
     Notebook.objective cal_cagr suggest = inl e) /\
  (forall cal_cagr suggest c,
     Notebook.objective cal_cagr suggest = inr c ->
     exists rf, Notebook.objective_rank_factors suggest = Some rf /\ cal_cagr rf = inr c).
Proof.
  split; [|split; [|split]].
  - intros cat scorer p rc e Hd Hs. unfold Multistage.objective. rewrite Hd, Hs. reflexivity.
  - intros cat scorer p c. unfold Multistage.objective.
    destruct (Multistage.decode cat p) as [rc| | |]; simpl; try discriminate.
    destruct (scorer rc) eqn:Hs; simpl; intros H; [|discriminate].
    injection H as ->. eauto.
  - intros cal_cagr suggest rf e Hr Hc. unfold Notebook.objective. rewrite Hr, Hc. reflexivity.
  - intros cal_cagr suggest c. unfold Notebook.objective.
    destruct (Notebook.objective_rank_factors suggest) as [rf|]; [|discriminate].
    destruct (cal_cagr rf) eqn:Hc; intros H; [discriminate|].
    injection H as ->. eauto.
Qed.

(** C8: a phase-two trial is routed to pure exploration exactly when its draw
    [r] is below [explorationRatio = 0.3]; an exploration trial ignores the
    findings and decodes and scores as a phase-one trial; and for draws spread
    uniformly over the grid [k / (10 m)], [k < 10 m], exactly [3 m] of them,
    the fraction 0.3, are routed to exploration. *)
Theorem phase_two_routing :
  Multistage.explorationRatio = (3 # 10)%Q /\
  (forall r, Multistage.route r = Multistage.Exploration <-> (r < Multistage.explorationRatio)%Q) /\
  (forall F cat scorer suggest g i,
     (g i < Multistage.explorationRatio)%Q ->
     fst (Multistage.run_trial (Multistage.PhaseTwo F) cat scorer suggest (g, i)) =
     fst (Multistage.run_trial Multistage.PhaseOne cat scorer suggest (g, i))) /\
  (forall m,
     length (filter (fun k => match Multistage.route (Z.of_nat k # Pos.of_nat (10 * m)) with
                              | Multistage.Exploration => true
                              | Multistage.Guided => false
                              end) (seq 0 (10 * m))) = 3 * m).
Proof.
  split; [reflexivity|split; [exact MultistageFacts.route_exploration|split]].
  - intros F cat scorer suggest g i Hr.
    apply MultistageFacts.route_exploration in Hr.
    unfold Multistage.run_trial, Multistage.mbind, Multistage.draw, Multistage.mret.
    cbv beta iota. rewrite Hr. reflexivity.
  - intros m. destruct m as [|m']; [reflexivity|].
    transitivity (length (filter (fun k => Nat.ltb k (3 * S m')) (seq 0 (10 * S m')))).
    + f_equal. apply filter_ext_in. intros k Hk.
      destruct (Multistage.route _) eqn:E.
      * symmetry. apply Nat.ltb_lt. apply (MultistageFacts.grid_route (S m') k); [lia|exact E].
      * symmetry. apply Nat.ltb_ge.
        destruct (Nat.lt_ge_cases k (3 * S m')) as [Hlt|Hge]; [|exact Hge].
        apply (MultistageFacts.grid_route (S m') k) in Hlt; [congruence|lia].
    + rewrite MultistageFacts.count_below. lia.
Qed.

(** C9: for a trial history recorded in id order, [analyze trials topN] keeps
    exactly the first [topN] completed trials by score, descending, equal scores
    broken by the earlier id, and derives its statistics from them alone; its
    trials are completed ones of the history, and removing the pruned trials
    from the history leaves the findings unchanged. *)
Theorem analyze_top_n (trials : list Multistage.TrialResult) (topN : nat)
    (Hids : StronglySorted (fun a b => Multistage.tr_id a < Multistage.tr_id b) trials) :
  Multistage.analyze trials topN =
    Multistage.findings_of (Multistage.top_trials (Multistage.analyze trials topN)) /\
  Multistage.analyze (Multistage.completed trials) topN = Multistage.analyze trials topN /\
  length (Multistage.top_trials (Multistage.analyze trials topN)) =
    Nat.min topN (length (Multistage.completed trials)) /\
  (forall t, In t (Multistage.top_trials (Multistage.analyze trials topN)) ->
     In t trials /\ Multistage.is_complete t = true) /\
  StronglySorted Multistage.ranks_before (Multistage.top_trials (Multistage.analyze trials topN)) /\
  (forall t u, In t (Multistage.top_trials (Multistage.analyze trials topN)) ->
     In u (Multistage.completed trials) ->
     ~ In u (Multistage.top_trials (Multistage.analyze trials topN)) ->
     Multistage.ranks_before t u).
Proof.
  assert (Htop : Multistage.top_trials (Multistage.analyze trials topN) =
                 firstn topN (Multistage.sort_desc (Multistage.completed trials)))
    by reflexivity.
  pose proof (MultistageFacts.sort_desc_perm (Multistage.completed trials)) as Hperm.
  assert (Hsorted : StronglySorted Multistage.ranks_before
                      (Multistage.sort_desc (Multistage.completed trials))).
  { apply MultistageFacts.sort_desc_sorted, MultistageFacts.StronglySorted_filter, Hids. }
  rewrite Htop.
  split; [reflexivity|]. split.
  { unfold Multistage.analyze, Multistage.top_n. rewrite MultistageFacts.completed_idem.
    reflexivity. }
  split.
  { rewrite length_firstn, (Permutation_length Hperm). reflexivity. }
  split.
  { intros t Ht.
    assert (H1 : In t (Multistage.sort_desc (Multistage.completed trials))).
    { rewrite <- (firstn_skipn topN (Multistage.sort_desc (Multistage.completed trials))).
      apply in_or_app. left; exact Ht. }
    apply (Permutation_in _ Hperm) in H1. exact (proj1 (filter_In _ _ _) H1). }
  split; [now apply MultistageFacts.StronglySorted_firstn|].
  intros t u Ht Hu Hnu.
  apply (Permutation_in _ (Permutation_sym Hperm)) in Hu.
  rewrite <- (firstn_skipn topN) in Hu, Hsorted.
  apply in_app_or in Hu as [Hu|Hu]; [contradiction|].
  exact (MultistageFacts.StronglySorted_app_rel _ _ _ _ _ Hsorted Ht Hu).
Qed.

Lemma decode_bounds_witness :
  (exists rc, Multistage.decode Multistage.sample_catalog
                (Multistage.sample_params "value" "momentum" true false []) = Multistage.DOk rc /\
              6 <= length rc <= 12) /\
  Multistage.decode Multistage.sample_catalog
    (Multistage.sample_params "value" "balanced" true true ["pre_close"; "open"]) =
  Multistage.DPruned.
Proof.
  split.
  - destruct (decode_bounds Multistage.sample_catalog
                (Multistage.sample_params "value" "momentum" true false [])) as (H1 & _ & _ & _).
    eexists. split; [vm_compute; reflexivity|].
    apply H1. vm_compute. reflexivity.
  - destruct (decode_bounds Multistage.sample_catalog
                (Multistage.sample_params "value" "balanced" true true ["pre_close"; "open"]))
      as (_ & H2 & _ & _).
    eapply H2; [vm_compute; reflexivity|simpl; lia].
Defined.

Lemma decode_unique_no_conflict_witness :
  (exists rc, Multistage.decode Multistage.sample_catalog
                (Multistage.sample_params "value" "balanced" true false []) = Multistage.DOk rc /\
              NoDup (Multistage.factor_names rc)) /\
  Multistage.decode Multistage.sample_catalog
    (Multistage.sample_params "value" "x" false true ["theory_conv_prem"]) = Multistage.DPruned /\
  NoDup (map Notebook.fi_name
           (match Notebook.objective_rank_factors Notebook.example_suggest with
            | Some rf => rf | None => [] end)).
Proof.
  split; [|split].
  - destruct (decode_unique_no_conflict Multistage.sample_catalog
                (Multistage.sample_params "value" "balanced" true false [])) as (H1 & _ & _).
    eexists. split; [vm_compute; reflexivity|].
    apply (H1 _). vm_compute. reflexivity.
  - destruct (decode_unique_no_conflict Multistage.sample_catalog
                (Multistage.sample_params "value" "x" false true ["theory_conv_prem"]))
      as (_ & H2 & _).
    eapply H2; vm_compute; reflexivity.
  - destruct (decode_unique_no_conflict Multistage.sample_catalog []) as (_ & _ & H3).
    destruct (Notebook.objective_rank_factors Notebook.example_suggest) as [rf|] eqn:E.
    + exact (H3 _ _ E).
    + constructor.
Defined.

Lemma mixed_invalid_pruned_witness :
  Multistage.decode Multistage.sample_catalog
    (Multistage.sample_params "momentum" "contrarian" true false []) = Multistage.DPruned /\
  Multistage.objective Multistage.sample_catalog (fun _ => Multistage.ScoreOk 0%Q)
    (Multistage.sample_params "momentum" "contrarian" true false []) =
  (Multistage.TrialPruned, []).
Proof.
  destruct (mixed_invalid_pruned Multistage.sample_catalog (fun _ => Multistage.ScoreOk 0%Q)
              (Multistage.sample_params "momentum" "contrarian" true false [])
              "momentum" "contrarian") as (H1 & H2 & _).
  - vm_compute. reflexivity.
  - vm_compute. discriminate.
  - vm_compute. reflexivity.
  - vm_compute. reflexivity.
  - vm_compute. reflexivity.
  - split; assumption.
Defined.

Lemma phase_two_routing_witness :
  fst (Multistage.run_trial (Multistage.PhaseTwo (Multistage.analyze Multistage.sample_history 2))
         Multistage.sample_catalog (fun _ => Multistage.ScoreOk 0%Q)
         (Multistage.sample_suggest "value" "x" false false []) (fun _ => 1 # 10, 0)) =
  fst (Multistage.run_trial Multistage.PhaseOne
         Multistage.sample_catalog (fun _ => Multistage.ScoreOk 0%Q)
         (Multistage.sample_suggest "value" "x" false false []) (fun _ => 1 # 10, 0)) /\
  length (filter (fun k => match Multistage.route (Z.of_nat k # Pos.of_nat (10 * 100)) with
                           | Multistage.Exploration => true
                           | Multistage.Guided => false
                           end) (seq 0 (10 * 100))) = 300.
Proof.
  destruct phase_two_routing as (_ & _ & H3 & H4).
  split.
  - apply H3. vm_compute. reflexivity.
  - exact (H4 100).
Defined.

Lemma analyze_top_n_witness :
  map Multistage.tr_id (Multistage.top_trials (Multistage.analyze Multistage.sample_history 2)) =
    [2; 0] /\
  (forall t u, In t (Multistage.top_trials (Multistage.analyze Multistage.sample_history 2)) ->
     In u (Multistage.completed Multistage.sample_history) ->
     ~ In u (Multistage.top_trials (Multistage.analyze Multistage.sample_history 2)) ->
     Multistage.ranks_before t u).
Proof.
  assert (Hids : StronglySorted (fun a b => Multistage.tr_id a < Multistage.tr_id b)
                   Multistage.sample_history).
  { unfold Multistage.sample_history.
    repeat constructor; simpl; lia. }
  destruct (analyze_top_n Multistage.sample_history 2 Hids) as (_ & _ & _ & _ & _ & H).
  split; [vm_compute; reflexivity|exact H].
Defined.

(** * Further properties of the notebooks and scripts *)

Lemma combinations_seq_iff s n k c :
  In c (combinations (seq s n) k) <->
  length c = k /\ StronglySorted lt c /\ Forall (fun i => s <= i < s + n) c.
Proof.
  revert s k c; induction n as [|n IH]; intros s k c.
  - destruct k as [|k]; cbn.
    + split.
      * intros [<-|[]]. repeat constructor.
      * intros [Hl _]. destruct c; [auto|discriminate].
    + split; [intros []|].
      intros [Hl [_ Hf]]. destruct c as [|x c]; [discriminate|].
      inversion Hf; subst. lia.
  - destruct k as [|k].
    + cbn. split.
      * intros [<-|[]]. repeat constructor.
      * intros [Hl _]. destruct c; [auto|discriminate].
    + cbn [seq combinations]. rewrite in_app_iff, in_map_iff. split.
      * intros [[c' [<- Hc']]|Hc].
        -- apply IH in Hc' as [Hl [Hs Hf]]. split; [cbn; lia|]. split.
           ++ constructor; [exact Hs|]. eapply Forall_impl; [|exact Hf]. cbn; lia.
           ++ constructor; [lia|]. eapply Forall_impl; [|exact Hf]. cbn; lia.
        -- apply IH in Hc as [Hl [Hs Hf]]. split; [exact Hl|]. split; [exact Hs|].
           eapply Forall_impl; [|exact Hf]. cbn; lia.
      * intros [Hl [Hs Hf]]. destruct c as [|x c]; [discriminate|].
        inversion Hf as [|? ? Hx Hf']; subst. inversion Hs as [|? ? Hs' Hlt]; subst.
        destruct (Nat.eq_dec x s) as [->|Hne].
        -- left. exists c. split; [reflexivity|]. apply IH. split; [cbn in Hl; lia|].
           split; [exact Hs'|]. apply Forall_forall. intros y Hy.
           pose proof (proj1 (Forall_forall _ _) Hlt y Hy).
           pose proof (proj1 (Forall_forall _ _) Hf' y Hy). cbn in *; lia.
        -- right. apply IH. split; [exact Hl|]. split; [constructor; assumption|].
           constructor; [lia|]. apply Forall_forall. intros y Hy.
           pose proof (proj1 (Forall_forall _ _) Hlt y Hy).
           pose proof (proj1 (Forall_forall _ _) Hf' y Hy). cbn in *; lia.
Qed.

Lemma combinations_NoDup {A} (l : list A) k : NoDup l -> NoDup (combinations l k).
Proof.
  revert k; induction l as [|x xs IH]; intros k Hnd.
  - destruct k; cbn; [repeat constructor; intros []|constructor].
  - inversion Hnd as [|? ? Hx Hxs]; subst.
    destruct k as [|k]; cbn; [repeat constructor; intros []|].
    apply NoDup_app.
    + apply Finite.Injective_map_NoDup; [intros a b H; now injection H|auto].
    + auto.
    + intros c Hc1 Hc2. apply in_map_iff in Hc1 as [c' [<- _]].
      apply Hx. exact (combinations_incl xs (S k) (x :: c') Hc2 x (or_introl eq_refl)).
Qed.

Module NotebookExtraFacts.
Import Notebook.

Lemma length_factors : length factors = 26.
Proof. reflexivity. Qed.

Lemma combinations_nb_NoDup : NoDup combinations_nb.
Proof. unfold combinations_nb. apply combinations_NoDup, seq_NoDup. Qed.

Lemma in_combinations_nb c :
  In c combinations_nb <->
  length c = 3 /\ StronglySorted lt c /\ Forall (fun i => i < 26) c.
Proof.
  unfold combinations_nb. rewrite length_factors, combinations_seq_iff.
  split; intros [Hl [Hs Hf]]; repeat split; auto;
    (eapply Forall_impl; [|exact Hf]); cbn; lia.
Qed.

End NotebookExtraFacts.

(** X1: [encoded_combinations] of the 26-factor notebook is defined exactly on
    the ids 0..2599, returns sorted triples of factor positions below 26, reaches
    every such triple, and no two ids give the same triple. *)
Theorem encoded_id_bijection :
  (forall eid : Z, Notebook.encoded_combinations eid <> None <-> (0 <= eid < 2600)%Z) /\
  (forall eid c, Notebook.encoded_combinations eid = Some c ->
     length c = 3 /\ StronglySorted lt c /\ Forall (fun i => i < 26) c) /\
  (forall c, length c = 3 -> StronglySorted lt c -> Forall (fun i => i < 26) c ->
     exists eid, Notebook.encoded_combinations eid = Some c) /\
  (forall eid1 eid2 c, Notebook.encoded_combinations eid1 = Some c ->
     Notebook.encoded_combinations eid2 = Some c -> eid1 = eid2).
Proof.
  pose proof NotebookFacts.length_combinations_nb as Hlen.
  unfold Notebook.encoded_combinations. split; [|split; [|split]].
  - intros eid. destruct (Z.ltb_spec eid 0) as [Hneg|Hpos].
    + split; [intros H; exfalso; now apply H|lia].
    + rewrite nth_error_Some, Hlen. lia.
  - intros eid c. destruct (eid <? 0)%Z; [discriminate|].
    intros E. exact (proj1 (NotebookExtraFacts.in_combinations_nb c) (nth_error_In _ _ E)).
  - intros c Hl Hs Hf.
    assert (Hin : In c Notebook.combinations_nb)
      by exact (proj2 (NotebookExtraFacts.in_combinations_nb c) (conj Hl (conj Hs Hf))).
    destruct (In_nth_error _ _ Hin) as [n E].
    exists (Z.of_nat n). rewrite Nat2Z.id.
    destruct (Z.ltb_spec (Z.of_nat n) 0); [lia|exact E].
  - intros eid1 eid2 c.
    destruct (Z.ltb_spec eid1 0); [discriminate|].
    destruct (Z.ltb_spec eid2 0); [discriminate|].
    intros E1 E2.
    assert (Z.to_nat eid1 = Z.to_nat eid2) as Heq.
    { eapply NoDup_nth_error; [exact NotebookExtraFacts.combinations_nb_NoDup| |congruence].
      apply nth_error_Some; congruence. }
    lia.
Qed.

Lemma map_opt_ext {A B} (f g : A -> option B) l :
  (forall x, In x l -> f x = g x) -> map_opt f l = map_opt g l.
Proof.
  induction l as [|x xs IH]; intros H; cbn; [reflexivity|].
  rewrite (H x (or_introl eq_refl)), IH; [reflexivity|]. intros y Hy; apply H; now right.
Qed.

Lemma py_index_negative {A} (l : list A) (i : Z) :
  (i < 0)%Z -> (- Z.of_nat (length l) <= i)%Z -> py_index l i = py_index l (Z.of_nat (length l) + i).
Proof.
  intros Hneg Hge. unfold py_index.
  destruct (Z.ltb_spec i 0); [|lia]. destruct (Z.ltb_spec (Z.of_nat (length l) + i) 0); [lia|].
  destruct (Z.ltb_spec (Z.of_nat (length l) + i) 0); [lia|]. reflexivity.
Qed.

Lemma py_index_out {A} (l : list A) (i : Z) :
  (i < - Z.of_nat (length l) \/ Z.of_nat (length l) <= i)%Z -> py_index l i = None.
Proof.
  intros H. unfold py_index.
  destruct (Z.ltb_spec i 0).
  - destruct (Z.ltb_spec (Z.of_nat (length l) + i) 0); [reflexivity|lia].
  - apply nth_error_None. lia.
Qed.

(** X2: [flexible_decode_combination] of the notebook reads [encoded_id] as a
    Python index: an id in -2600..-1 decodes as the id plus 2600 (where
    [encoded_combinations] gives nothing), and an id outside -2600..2599 fails. *)
Theorem flexible_decode_index_range (p : string -> option pyval) (eid : Z)
    (Hp : p "encoded_id" = Some (VInt eid)) :
  ((-2600 <= eid < 0)%Z ->
     Notebook.flexible_decode_combination p =
     Notebook.flexible_decode_combination
       (fun k => if String.eqb k "encoded_id" then Some (VInt (eid + 2600)) else p k) /\
     Notebook.encoded_combinations eid = None) /\
  ((eid < -2600 \/ 2600 <= eid)%Z -> Notebook.flexible_decode_combination p = None).
Proof.
  pose proof NotebookFacts.length_combinations_nb as Hlen.
  split.
  - intros Hr. split.
    + unfold Notebook.flexible_decode_combination. rewrite Hp. cbn [String.eqb Ascii.eqb Bool.eqb andb].
      rewrite (py_index_negative Notebook.combinations_nb eid) by (try rewrite Hlen; lia).
      rewrite Hlen. replace (Z.of_nat 2600 + eid)%Z with (eid + 2600)%Z by lia.
      destruct (py_index Notebook.combinations_nb (eid + 2600)) as [fi|]; [|reflexivity].
      apply map_opt_ext. intros [i index] _. reflexivity.
    + unfold Notebook.encoded_combinations. destruct (Z.ltb_spec eid 0); [reflexivity|lia].
  - intros Hr. unfold Notebook.flexible_decode_combination. rewrite Hp.
    rewrite py_index_out by (rewrite Hlen; lia). reflexivity.
Qed.

Module StringFacts.

Lemma length_app (s t : string) : String.length (s ++ t) = String.length s + String.length t.
Proof. induction s as [|c s IH]; cbn; [reflexivity|now rewrite IH]. Qed.

Lemma app_cancel_l (pre a b : string) : pre ++ a = pre ++ b -> a = b.
Proof. induction pre as [|c pre IH]; cbn; [auto|intros H; injection H; auto]. Qed.

Lemma app_cancel_r (a b t : string) : a ++ t = b ++ t -> a = b.
Proof.
  intros H. assert (Hl : String.length a = String.length b).
  { apply (f_equal String.length) in H. rewrite !length_app in H. lia. }
  revert b H Hl; induction a as [|c a IH]; intros [|c' b] H Hl; cbn in *;
    try discriminate; [reflexivity|].
  injection H as -> H. f_equal. apply IH; [exact H|lia].
Qed.

Lemma py_str_nat_inj m n : py_str_nat m = py_str_nat n -> m = n.
Proof.
  unfold py_str_nat. intros H.
  apply (f_equal NilEmpty.uint_of_string) in H. rewrite !NilEmpty.usu in H.
  injection H as H. rewrite <- (DecimalNat.Unsigned.of_to m), <- (DecimalNat.Unsigned.of_to n).
  now rewrite H.
Qed.

Lemma get_app_suffix (x t : string) n : get (String.length x + n) (x ++ t) = get n t.
Proof. rewrite (append_correct2 x t n). f_equal. lia. Qed.

End StringFacts.

Module NameFacts.
Import Notebook StringFacts.

Lemma weight_name_inj m n : weight_name m = weight_name n -> m = n.
Proof.
  unfold weight_name. intros H. apply app_cancel_l, app_cancel_r, py_str_nat_inj in H. exact H.
Qed.

Lemma ascending_name_inj m n : ascending_name m = ascending_name n -> m = n.
Proof.
  unfold ascending_name. intros H. apply app_cancel_l, app_cancel_r, py_str_nat_inj in H. exact H.
Qed.

Lemma weight_not_ascending m n : weight_name m <> ascending_name n.
Proof.
  unfold weight_name, ascending_name. intros H. apply app_cancel_l in H.
  assert (Hl := f_equal String.length H). rewrite !length_app in Hl. cbn in Hl.
  assert (Hg := f_equal (get (String.length (py_str_nat m) + 6)) H).
  rewrite get_app_suffix in Hg.
  replace (String.length (py_str_nat m) + 6) with (String.length (py_str_nat n) + 9) in Hg by lia.
  rewrite get_app_suffix in Hg. discriminate.
Qed.

Lemma weight_not_encoded_id n : weight_name n <> "encoded_id".
Proof. discriminate. Qed.

End NameFacts.

Module ConvertParamFacts.
Import Notebook ConvertParam NameFacts.

Lemma key_in_true d k : Py.key_in d k = true <-> In k (map fst d).
Proof.
  unfold Py.key_in. rewrite existsb_exists, in_map_iff. split.
  - intros [[k' v] [Hin Heq]]. apply String.eqb_eq in Heq. subst. now exists (k', v).
  - intros [[k' v] [Heq Hin]]. exists (k', v). split; [exact Hin|]. apply String.eqb_eq. auto.
Qed.

Lemma count_weights_spec d fuel n :
  (forall i, 1 <= i <= n -> Py.key_in d (weight_name i) = true) ->
  n <= count_weights d fuel n /\
  (forall i, 1 <= i <= count_weights d fuel n -> Py.key_in d (weight_name i) = true) /\
  (Py.key_in d (weight_name (count_weights d fuel n + 1)) = false \/
   count_weights d fuel n = n + fuel).
Proof.
  revert n; induction fuel as [|fuel IH]; intros n Hn; cbn [count_weights].
  - split; [lia|]. split; [exact Hn|]. right; lia.
  - destruct (Py.key_in d (weight_name (n + 1))) eqn:E.
    + destruct (IH (n + 1)) as [H1 [H2 H3]].
      { intros i Hi. destruct (Nat.eq_dec i (n + 1)) as [->|Hne]; [exact E|apply Hn; lia]. }
      split; [lia|]. split; [exact H2|]. destruct H3 as [H3|H3]; [now left|right; lia].
    + split; [lia|]. split; [exact Hn|]. now left.
Qed.

Lemma weights_bound d r :
  (forall i, 1 <= i <= r -> Py.key_in d (weight_name i) = true) -> r <= length d.
Proof.
  intros H. rewrite <- (length_map fst d), <- (length_seq r 1), <- (length_map weight_name (seq 1 r)).
  apply NoDup_incl_length.
  - apply Finite.Injective_map_NoDup; [intros a b; apply weight_name_inj|apply seq_NoDup].
  - intros k Hk. apply in_map_iff in Hk as [i [<- Hi]]. apply in_seq in Hi.
    apply key_in_true, H. lia.
Qed.

Lemma num_factors_of_spec d n :
  num_factors_of d = n <->
  (forall i, 1 <= i <= n -> Py.key_in d (weight_name i) = true) /\
  Py.key_in d (weight_name (n + 1)) = false.
Proof.
  unfold num_factors_of.
  destruct (count_weights_spec d (S (length d)) 0) as [_ [H2 H3]]; [intros; lia|].
  assert (Hf : Py.key_in d (weight_name (count_weights d (S (length d)) 0 + 1)) = false).
  { destruct H3 as [H3|H3]; [exact H3|]. pose proof (weights_bound d _ H2). lia. }
  split.
  - intros <-. split; assumption.
  - intros [Hin Hout]. set (r := count_weights d (S (length d)) 0) in *.
    destruct (Nat.lt_total r n) as [Hlt|[Heq|Hgt]].
    + rewrite Hin in Hf; [discriminate|lia].
    + exact Heq.
    + rewrite H2 in Hout; [discriminate|lia].
Qed.

End ConvertParamFacts.

Module ConvertParamFacts2.
Import Notebook ConvertParam NameFacts ConvertParamFacts Helpers.

Lemma map_exc_all_inr {A B} (f : A -> Py.exc + B) (g : A -> B) l :
  (forall x, In x l -> f x = inr (g x)) -> Py.map_exc f l = inr (map g l).
Proof.
  induction l as [|x xs IH]; intros H; cbn; [reflexivity|].
  rewrite (H x (or_introl eq_refl)), IH; [reflexivity|]. intros y Hy; apply H; now right.
Qed.

Lemma dict_get_some_in (d : list (string * pyval)) k v :
  dict_get d k = Some v -> In k (map fst d).
Proof.
  induction d as [|[k' v'] d IH]; cbn; [discriminate|].
  destruct (String.eqb_spec k k'); [intros _; now left|intros H; right; auto].
Qed.

Lemma entries_weight ws asc s n j :
  s <= j < s + n ->
  dict_get (concat (map (entry ws asc) (seq s n))) (weight_name (j + 1)) = Some (nth j ws (VInt 0)).
Proof.
  revert s; induction n as [|n IH]; intros s Hj; [lia|].
  cbn [seq map concat entry app dict_get].
  destruct (String.eqb_spec (weight_name (j + 1)) (weight_name (s + 1))) as [E|E].
  - apply weight_name_inj in E. now replace s with j by lia.
  - destruct (String.eqb_spec (weight_name (j + 1)) (ascending_name (s + 1))) as [E'|E'].
    + exfalso; exact (weight_not_ascending _ _ E').
    + apply IH. assert (j <> s) by (intros ->; auto). lia.
Qed.

Lemma entries_ascending ws asc s n j :
  s <= j < s + n ->
  dict_get (concat (map (entry ws asc) (seq s n))) (ascending_name (j + 1)) = Some (nth j asc (VBool false)).
Proof.
  revert s; induction n as [|n IH]; intros s Hj; [lia|].
  cbn [seq map concat entry app dict_get].
  destruct (String.eqb_spec (ascending_name (j + 1)) (weight_name (s + 1))) as [E|E].
  - exfalso; exact (weight_not_ascending _ _ (eq_sym E)).
  - destruct (String.eqb_spec (ascending_name (j + 1)) (ascending_name (s + 1))) as [E'|E'].
    + apply ascending_name_inj in E'. now replace s with j by lia.
    + apply IH. assert (j <> s) by (intros ->; auto). lia.
Qed.

Lemma entries_keys ws asc s n k :
  In k (map fst (concat (map (entry ws asc) (seq s n)))) ->
  exists i, s <= i < s + n /\ (k = weight_name (i + 1) \/ k = ascending_name (i + 1)).
Proof.
  revert s; induction n as [|n IH]; intros s Hk; cbn in Hk; [contradiction|].
  destruct Hk as [<-|[<-|Hk]].
  - exists s. split; [lia|now left].
  - exists s. split; [lia|now right].
  - destruct (IH (S s) Hk) as [i [Hi Hki]]. exists i. split; [lia|exact Hki].
Qed.

End ConvertParamFacts2.

(** X4: For every sorted list [c] of distinct positions below 27 there is an
    [encoded_id] such that [convert_param]'s decoder, given that id and the weight
    and ascending entries of [c]'s length, returns the factors at [c] with those
    weights and ascending flags. *)
Theorem convert_param_roundtrip (c : list nat) (ws asc : list pyval)
    (Hs : StronglySorted lt c) (Hr : Forall (fun i => i < 27) c) :
  exists eid,
    nth_error (combinations (seq 0 27) (length c)) eid = Some c /\
    ConvertParam.flexible_decode_combination
      (("encoded_id", VInt (Z.of_nat eid)) ::
       concat (map (fun i => [(Notebook.weight_name (i + 1), nth i ws (VInt 0));
                              (Notebook.ascending_name (i + 1), nth i asc (VBool false))])
                   (seq 0 (length c))))
    = inr (map (fun '(i, index) =>
                  Notebook.mk_factor_info (nth index ConvertParam.factors "")
                    (nth i ws (VInt 0)) (nth i asc (VBool false)))
               (combine (seq 0 (length c)) c)).
Proof.
  assert (Hin : In c (combinations (seq 0 27) (length c))).
  { apply combinations_seq_iff. split; [reflexivity|]. split; [exact Hs|].
    eapply Forall_impl; [|exact Hr]. cbn; lia. }
  destruct (In_nth_error _ _ Hin) as [eid E]. exists eid. split; [exact E|].
  set (body := concat (map (Helpers.entry ws asc) (seq 0 (length c)))).
  change (concat (map (fun i => [(Notebook.weight_name (i + 1), nth i ws (VInt 0));
                              (Notebook.ascending_name (i + 1), nth i asc (VBool false))])
                   (seq 0 (length c)))) with body.
  assert (Hnum : ConvertParam.num_factors_of (("encoded_id", VInt (Z.of_nat eid)) :: body) = length c).
  { apply ConvertParamFacts.num_factors_of_spec. split.
    - intros i Hi. apply ConvertParamFacts.key_in_true. cbn [map fst]. right.
      destruct i as [|i]; [lia|]. replace (S i) with (i + 1) by lia.
      assert (Hd := ConvertParamFacts2.entries_weight ws asc 0 (length c) i ltac:(lia)).
      fold body in Hd. exact (ConvertParamFacts2.dict_get_some_in _ _ _ Hd).
    - destruct (Py.key_in _ _) eqn:K; [|reflexivity]. exfalso.
      apply ConvertParamFacts.key_in_true in K. cbn [map fst] in K.
      destruct K as [K|K]; [exact (NameFacts.weight_not_encoded_id _ (eq_sym K))|].
      destruct (ConvertParamFacts2.entries_keys _ _ _ _ _ K) as [i [Hi [Hk|Hk]]].
      + apply NameFacts.weight_name_inj in Hk. lia.
      + exact (NameFacts.weight_not_ascending _ _ Hk). }
  unfold ConvertParam.flexible_decode_combination. cbv zeta. rewrite Hnum.
  cbn [Py.getitem dict_get String.eqb Ascii.eqb Bool.eqb andb fst snd].
  unfold Py.list_getitem, Py.as_index, py_index.
  destruct (Z.ltb_spec (Z.of_nat eid) 0) as [Hneg|_]; [lia|]. rewrite Nat2Z.id.
  change (length ConvertParam.factors) with 27. rewrite E.
  apply ConvertParamFacts2.map_exc_all_inr. intros [i index] Hx.
  pose proof (in_combine_l _ _ _ _ Hx) as Hi. apply in_seq in Hi.
  pose proof (in_combine_r _ _ _ _ Hx) as Hix.
  assert (Hidx : index < 27) by (exact (proj1 (Forall_forall _ _) Hr index Hix)).
  destruct (nth_error ConvertParam.factors index) as [nm|] eqn:En;
    [|apply nth_error_None in En; change (length ConvertParam.factors) with 27 in En; lia].
  rewrite (nth_error_nth _ _ "" En).
  unfold Py.getitem. cbn [dict_get].
  rewrite (proj2 (String.eqb_neq _ _) (NameFacts.weight_not_encoded_id (i + 1))).
  assert (Ha : Notebook.ascending_name (i + 1) <> "encoded_id") by discriminate.
  rewrite (proj2 (String.eqb_neq _ _) Ha). unfold body.
  rewrite (ConvertParamFacts2.entries_weight ws asc 0 (length c) i) by lia.
  rewrite (ConvertParamFacts2.entries_ascending ws asc 0 (length c) i) by lia.
  reflexivity.
Qed.

Module DupFacts.
Import Notebook Helpers.

Lemma map_exc_inr_map {A B C} (f : A -> Py.exc + B) (g : A -> C) (h : B -> C) l ys :
  (forall x y, f x = inr y -> h y = g x) -> Py.map_exc f l = inr ys -> map h ys = map g l.
Proof.
  revert ys; induction l as [|x xs IH]; intros ys H E; cbn in E.
  - now injection E as <-.
  - destruct (f x) as [e|y] eqn:Fx; [discriminate|].
    destruct (Py.map_exc f xs) as [e|ys'] eqn:Fxs; [discriminate|].
    injection E as <-. cbn. rewrite (H x y Fx), (IH ys' H eq_refl). reflexivity.
Qed.

Lemma map_snd_combine {A B} (l1 : list A) (l2 : list B) :
  length l1 = length l2 -> map snd (combine l1 l2) = l2.
Proof.
  revert l2; induction l1 as [|x xs IH]; intros [|y ys] H; cbn in *; try discriminate; auto.
  rewrite IH; auto.
Qed.

Lemma same_name_pairs_spec f i j :
  i < j < length f -> nth i f "" = nth j f "" -> In (i, j) (same_name_pairs f).
Proof.
  intros Hij Heq. unfold same_name_pairs. apply in_flat_map. exists i.
  split; [apply in_seq; lia|]. apply in_map_iff. exists j. split; [reflexivity|].
  apply filter_In. split; [apply in_seq; lia|]. rewrite Heq, String.eqb_refl.
  apply andb_true_intro; split; [apply Nat.ltb_lt; lia|reflexivity].
Qed.

Lemma NoDup_map_sorted (f : nat -> string) (c : list nat) :
  StronglySorted lt c ->
  (NoDup (map f c) <-> forall x y, In x c -> In y c -> x < y -> f x <> f y).
Proof.
  induction c as [|a c IH]; intros Hs; cbn.
  - split; [intros _ x y []|constructor].
  - inversion Hs as [|? ? Hs' Hlt]; subst. rewrite NoDup_cons_iff, (IH Hs'). split.
    + intros [Hn Hrest] x y [<-|Hx] [<-|Hy] Hxy.
      * lia.
      * intros E. apply Hn. rewrite E. now apply in_map.
      * pose proof (proj1 (Forall_forall _ _) Hlt x Hx). lia.
      * now apply Hrest.
    + intros H. split.
      * intros Hin. apply in_map_iff in Hin as [y [E Hy]].
        refine (H a y (or_introl eq_refl) (or_intror Hy) _ (eq_sym E)).
        exact (proj1 (Forall_forall _ _) Hlt y Hy).
      * intros x y Hx Hy Hxy. apply H; auto.
Qed.

(** When the only repeated name of [f] is at positions 7 and 14, a sorted
    list of positions names distinct factors exactly when it does not hold both. *)
Lemma dup_positions (f : list string) :
  same_name_pairs f = [(7, 14)] ->
  forall c, StronglySorted lt c -> Forall (fun i => i < length f) c ->
  (NoDup (map (fun i => nth i f "") c) <-> ~ (In 7 c /\ In 14 c)).
Proof.
  intros Hp c Hs Hr. rewrite NoDup_map_sorted by exact Hs. split.
  - intros H [H7 H14]. apply (H 7 14 H7 H14); [lia|].
    assert (In (7, 14) (same_name_pairs f)) as Hin by (rewrite Hp; now left).
    unfold same_name_pairs in Hin. apply in_flat_map in Hin as [i [_ Hin]].
    apply in_map_iff in Hin as [j [E Hj]]. injection E as -> ->.
    apply filter_In in Hj as [_ Hj]. apply andb_prop in Hj as [_ Hj].
    now apply String.eqb_eq in Hj.
  - intros Hn x y Hx Hy Hxy E. apply Hn.
    pose proof (proj1 (Forall_forall _ _) Hr y Hy) as Hyl. cbv beta in Hyl.
    pose proof (same_name_pairs_spec f x y ltac:(lia) E) as Hin. rewrite Hp in Hin.
    destruct Hin as [Hin|[]]. injection Hin as -> ->. auto.
Qed.

End DupFacts.

(** X5: A successful decode of [convert_param] names the factors at the decoded
    positions, and repeats a name exactly when positions 7 and 14 (both
    ['amount']) are among them. *)
Theorem convert_param_duplicate_amount (d : list (string * pyval)) (v : pyval)
    (c : list nat) (rf : list Notebook.factor_info)
    (Hid : Py.getitem d "encoded_id" = inr v)
    (Hc : Py.list_getitem (combinations (seq 0 27) (ConvertParam.num_factors_of d)) v = inr c)
    (Hd : ConvertParam.flexible_decode_combination d = inr rf) :
  map Notebook.fi_name rf = map (fun i => nth i ConvertParam.factors "") c /\
  (NoDup (map Notebook.fi_name rf) <-> ~ (In 7 c /\ In 14 c)).
Proof.
  assert (Hin : In c (combinations (seq 0 27) (ConvertParam.num_factors_of d))).
  { unfold Py.list_getitem in Hc. destruct (Py.as_index v) as [e|i]; [discriminate|].
    destruct (py_index _ i) as [c'|] eqn:E; [|discriminate]. injection Hc as <-.
    unfold py_index in E.
    destruct (i <? 0)%Z; [destruct (_ <? 0)%Z; [discriminate|]|]; eapply nth_error_In; exact E. }
  apply combinations_seq_iff in Hin as [_ [Hs Hr]].
  assert (Hnames : map Notebook.fi_name rf = map (fun i => nth i ConvertParam.factors "") c).
  { unfold ConvertParam.flexible_decode_combination in Hd. cbv zeta in Hd.
    change (length ConvertParam.factors) with 27 in Hd. rewrite Hid, Hc in Hd.
    rewrite <- (DupFacts.map_snd_combine (seq 0 (length c)) c) by apply length_seq.
    rewrite map_map.
    refine (DupFacts.map_exc_inr_map _ _ _ _ _ _ Hd).
    intros [i index] y Hf. cbn [snd].
    destruct (nth_error ConvertParam.factors index) as [nm|] eqn:En; [|discriminate].
    destruct (Py.getitem d (Notebook.weight_name (i + 1))) as [e|w]; [discriminate|].
    destruct (Py.getitem d (Notebook.ascending_name (i + 1))) as [e|a]; [discriminate|].
    injection Hf as <-. cbn [Notebook.fi_name]. symmetry. exact (nth_error_nth _ _ _ En). }
  split; [exact Hnames|]. rewrite Hnames.
  apply DupFacts.dup_positions; [vm_compute; reflexivity|exact Hs|].
  eapply Forall_impl; [|exact Hr]. cbn; lia.
Qed.

(** X6: Without a [factor1_weight] key, [convert_param]'s decoder works on the
    combinations of size 0: ids 0 and -1 give no factors, any other id raises
    [IndexError]. *)
Theorem convert_param_no_factors (d : list (string * pyval)) (z : Z)
    (Hw : Py.key_in d (Notebook.weight_name 1) = false)
    (Hid : dict_get d "encoded_id" = Some (VInt z)) :
  ConvertParam.flexible_decode_combination d =
  if (Z.eqb z 0 || Z.eqb z (-1))%bool then inr [] else inl Py.IndexError.
Proof.
  assert (Hn : ConvertParam.num_factors_of d = 0).
  { apply ConvertParamFacts.num_factors_of_spec. split; [intros; lia|exact Hw]. }
  unfold ConvertParam.flexible_decode_combination. cbv zeta. rewrite Hn.
  unfold Py.getitem. rewrite Hid. cbn [combinations Py.list_getitem Py.as_index].
  unfold py_index.
  change (combinations (seq 0 (length ConvertParam.factors)) 0) with (@nil nat :: nil).
  change (Z.of_nat (length (@nil nat :: nil))) with 1%Z.
  destruct (Z.ltb_spec z 0).
  - destruct (Z.ltb_spec (1 + z) 0).
    + destruct (Z.eqb_spec z 0); [lia|]. destruct (Z.eqb_spec z (-1)); [lia|]. reflexivity.
    + replace z with (-1)%Z by lia. reflexivity.
  - destruct (Z.eqb_spec z 0) as [->|Hz]; [reflexivity|].
    destruct (Z.eqb_spec z (-1)); [lia|].
    rewrite (proj2 (nth_error_None [[]] (Z.to_nat z))) by (cbn; lia). reflexivity.
Qed.


Module Custom6Facts.
Import Notebook Custom6 Helpers.

Lemma nodup_length_lt {A} (dec : forall x y : A, {x = y} + {x <> y}) (l : list A) :
  ~ NoDup l -> length (nodup dec l) < length l.
Proof.
  intros Hn. destruct (Nat.lt_ge_cases (length (nodup dec l)) (length l)) as [H|H]; [exact H|].
  exfalso. apply Hn. eapply NoDup_incl_NoDup; [apply (NoDup_nodup dec l)|exact H|].
  intros x Hx. exact (proj1 (nodup_In dec l x) Hx).
Qed.

Lemma length_ids (si : string -> Z) : length (map si id_names) = 6.
Proof. reflexivity. Qed.

Lemma py_index_factors (z : Z) : (0 <= z < 59)%Z -> py_index factors z = Some (nth (Z.to_nat z) factors "").
Proof.
  intros Hz. unfold py_index. destruct (Z.ltb_spec z 0); [lia|].
  apply nth_error_nth'. change (length factors) with 59. lia.
Qed.

Lemma rank_loop_in_range sc ids i :
  Forall (fun z => 0 <= z < 59)%Z ids ->
  rank_loop sc ids i = (suggested_names i (length ids), Some (ranked sc i ids)).
Proof.
  revert i; induction ids as [|z ids IH]; intros i Hr; [reflexivity|].
  inversion Hr as [|? ? Hz Hr']; subst. cbn [rank_loop].
  rewrite (py_index_factors z Hz), (IH (S i) Hr'). reflexivity.
Qed.

End Custom6Facts.

Module DupFacts2.

Lemma NoDup_map_iff {A} (g : nat -> A) (c : list nat) :
  NoDup c ->
  (NoDup (map g c) <-> forall x y, In x c -> In y c -> x < y -> g x <> g y).
Proof.
  induction c as [|a c IH]; intros Hc; cbn.
  - split; [intros _ x y []|constructor].
  - apply NoDup_cons_iff in Hc as [Ha Hc]. rewrite NoDup_cons_iff, (IH Hc). split.
    + intros [Hn Hrest] x y [<-|Hx] [<-|Hy] Hxy.
      * lia.
      * intros E. apply Hn. rewrite E. now apply in_map.
      * intros E. apply Hn. rewrite <- E. now apply in_map.
      * now apply Hrest.
    + intros H. split.
      * intros Hin. apply in_map_iff in Hin as [y [E Hy]].
        assert (a <> y) by (intros ->; contradiction).
        destruct (Nat.lt_gt_cases a y) as [[Hlt|Hlt] _]; [assumption| |].
        -- exact (H a y (or_introl eq_refl) (or_intror Hy) Hlt (eq_sym E)).
        -- exact (H y a (or_intror Hy) (or_introl eq_refl) Hlt E).
      * intros x y Hx Hy Hxy. apply H; auto.
Qed.

(** [dup_positions] for a duplicate-free index list in any order. *)
Lemma dup_positions_nodup (f : list string) :
  Helpers.same_name_pairs f = [(7, 14)] ->
  forall c, NoDup c -> Forall (fun i => i < length f) c ->
  (NoDup (map (fun i => nth i f "") c) <-> ~ (In 7 c /\ In 14 c)).
Proof.
  intros Hp c Hc Hr. rewrite (NoDup_map_iff _ _ Hc). split.
  - intros H [H7 H14]. apply (H 7 14 H7 H14); [lia|].
    assert (In (7, 14) (Helpers.same_name_pairs f)) as Hin by (rewrite Hp; now left).
    unfold Helpers.same_name_pairs in Hin. apply in_flat_map in Hin as [i [_ Hin]].
    apply in_map_iff in Hin as [j [E Hj]]. injection E as -> ->.
    apply filter_In in Hj as [_ Hj]. apply andb_prop in Hj as [_ Hj].
    now apply String.eqb_eq in Hj.
  - intros Hn x y Hx Hy Hxy E. apply Hn.
    pose proof (proj1 (Forall_forall _ _) Hr y Hy) as Hyl. cbv beta in Hyl.
    pose proof (DupFacts.same_name_pairs_spec f x y ltac:(lia) E) as Hin. rewrite Hp in Hin.
    destruct Hin as [Hin|[]]. injection Hin as -> ->. auto.
Qed.

Lemma NoDup_map_to_nat (l : list Z) :
  Forall (fun z => 0 <= z)%Z l -> NoDup l -> NoDup (map Z.to_nat l).
Proof.
  induction l as [|z l IH]; intros Hr Hn; cbn; [constructor|].
  inversion Hr as [|? ? Hz Hr']; subst. apply NoDup_cons_iff in Hn as [Hz' Hn].
  constructor; [|now apply IH].
  intros Hin. apply in_map_iff in Hin as [w [E Hw]]. apply Hz'.
  pose proof (proj1 (Forall_forall _ _) Hr' w Hw) as Hw0. cbv beta in Hw0.
  replace z with w by lia. exact Hw.
Qed.

Lemma in_map_to_nat (l : list Z) (n : nat) :
  Forall (fun z => 0 <= z)%Z l -> In n (map Z.to_nat l) <-> In (Z.of_nat n) l.
Proof.
  intros Hr. rewrite in_map_iff. split.
  - intros [z [<- Hz]]. pose proof (proj1 (Forall_forall _ _) Hr z Hz) as H0. cbv beta in H0.
    rewrite Z2Nat.id by exact H0. exact Hz.
  - intros Hn. exists (Z.of_nat n). split; [apply Nat2Z.id|exact Hn].
Qed.

End DupFacts2.

(** X7: In the custom-6 notebook, a trial whose six factor ids repeat a value
    suggests only the six ids and returns -1000000 without calling [cal_cagr]. *)
Theorem custom6_repeated_id_penalised (cal_cagr : list Notebook.factor_info -> Py.exc + Q)
    (suggest_int : string -> Z) (suggest_categorical : string -> pyval)
    (Hdup : ~ NoDup (map suggest_int Custom6.id_names)) :
  Custom6.objective cal_cagr suggest_int suggest_categorical =
  (Custom6.id_names, inr (-1000000 # 1)%Q).
Proof.
  unfold Custom6.objective.
  pose proof (Custom6Facts.nodup_length_lt Z.eq_dec _ Hdup) as H.
  rewrite Custom6Facts.length_ids in H. apply Nat.ltb_lt in H. rewrite H. reflexivity.
Qed.

(** X8: In the custom-6 notebook, six distinct ids in 0..58 lead to the twelve
    weight and ascending suggestions after the ids, and [cal_cagr] is called on the
    factors named by the ids with the suggested weights and flags. *)
Theorem custom6_accepted_trial (cal_cagr : list Notebook.factor_info -> Py.exc + Q)
    (suggest_int : string -> Z) (suggest_categorical : string -> pyval)
    (Hnd : NoDup (map suggest_int Custom6.id_names))
    (Hr : Forall (fun z => 0 <= z < 59)%Z (map suggest_int Custom6.id_names)) :
  exists rank_factors,
    Custom6.objective cal_cagr suggest_int suggest_categorical =
      ((Custom6.id_names ++ flat_map (fun i => [Notebook.weight_name i; Notebook.ascending_name i])
                                    (seq 1 6))%list,
       cal_cagr rank_factors) /\
    map Notebook.fi_name rank_factors =
      map (fun i => nth (Z.to_nat (suggest_int (Custom6.id_name i))) Custom6.factors "") (seq 1 6) /\
    map Notebook.fi_weight rank_factors =
      map (fun i => suggest_categorical (Notebook.weight_name i)) (seq 1 6) /\
    map Notebook.fi_ascending rank_factors =
      map (fun i => suggest_categorical (Notebook.ascending_name i)) (seq 1 6).
Proof.
  exists (Helpers.ranked suggest_categorical 1 (map suggest_int Custom6.id_names)).
  unfold Custom6.objective. rewrite (nodup_fixed_point Z.eq_dec Hnd), Custom6Facts.length_ids.
  cbn [Nat.ltb Nat.leb]. rewrite (Custom6Facts.rank_loop_in_range _ _ 1 Hr).
  rewrite Custom6Facts.length_ids. split; [reflexivity|]. repeat split; reflexivity.
Qed.

(** X9: [transform_params] applied to the parameters of an accepted custom-6
    trial rebuilds the ranking passed to [cal_cagr], with each ascending flag
    negated. *)
Theorem custom6_transform_inverts (cal_cagr : list Notebook.factor_info -> Py.exc + Q)
    (suggest_int : string -> Z) (suggest_categorical : string -> pyval)
    (Hnd : NoDup (map suggest_int Custom6.id_names))
    (Hr : Forall (fun z => 0 <= z < 59)%Z (map suggest_int Custom6.id_names)) :
  exists rank_factors,
    snd (Custom6.objective cal_cagr suggest_int suggest_categorical) = cal_cagr rank_factors /\
    Custom6.transform_params
      (Custom6.trial_params suggest_int suggest_categorical
         (fst (Custom6.objective cal_cagr suggest_int suggest_categorical)))
      Custom6.factors =
    inr (map (fun fi => Notebook.mk_factor_info (Notebook.fi_name fi) (Notebook.fi_weight fi)
                          (VBool (negb (Py.truth (Notebook.fi_ascending fi))))) rank_factors).
Proof.
  exists (Helpers.ranked suggest_categorical 1 (map suggest_int Custom6.id_names)).
  unfold Custom6.objective. rewrite (nodup_fixed_point Z.eq_dec Hnd), Custom6Facts.length_ids.
  cbn [Nat.ltb Nat.leb]. rewrite (Custom6Facts.rank_loop_in_range _ _ 1 Hr).
  rewrite Custom6Facts.length_ids. split; [reflexivity|]. cbn [fst].
  cbn in Hr.
  inversion Hr as [|? ? H1 Hr1]; subst; inversion Hr1 as [|? ? H2 Hr2]; subst;
  inversion Hr2 as [|? ? H3 Hr3]; subst; inversion Hr3 as [|? ? H4 Hr4]; subst;
  inversion Hr4 as [|? ? H5 Hr5]; subst; inversion Hr5 as [|? ? H6 _]; subst.
  unfold Custom6.transform_params. vm_compute Custom6.trial_params.
  cbn -[py_index Custom6.factors Py.truth].
  unfold Py.list_getitem, Py.as_index.
  rewrite !Custom6Facts.py_index_factors by assumption. reflexivity.
Qed.

(** X10: The ranking of an accepted custom-6 trial repeats a factor name exactly
    when the ids 7 and 14 (both ['amount']) are both chosen. *)
Theorem custom6_duplicate_names (cal_cagr : list Notebook.factor_info -> Py.exc + Q)
    (suggest_int : string -> Z) (suggest_categorical : string -> pyval)
    (Hnd : NoDup (map suggest_int Custom6.id_names))
    (Hr : Forall (fun z => 0 <= z < 59)%Z (map suggest_int Custom6.id_names)) :
  exists rank_factors,
    snd (Custom6.objective cal_cagr suggest_int suggest_categorical) = cal_cagr rank_factors /\
    (NoDup (map Notebook.fi_name rank_factors) <->
     ~ (In 7%Z (map suggest_int Custom6.id_names) /\ In 14%Z (map suggest_int Custom6.id_names))).
Proof.
  set (ids := map suggest_int Custom6.id_names) in *.
  exists (Helpers.ranked suggest_categorical 1 ids).
  split.
  - unfold Custom6.objective. fold ids.
    rewrite (nodup_fixed_point Z.eq_dec Hnd). unfold ids. rewrite Custom6Facts.length_ids.
    cbn [Nat.ltb Nat.leb]. rewrite (Custom6Facts.rank_loop_in_range _ _ 1 Hr). reflexivity.
  - assert (H0 : Forall (fun z => 0 <= z)%Z ids)
      by (eapply Forall_impl; [|exact Hr]; cbv beta; lia).
    assert (Hnames : map Notebook.fi_name (Helpers.ranked suggest_categorical 1 ids) =
                     map (fun i => nth i Custom6.factors "") (map Z.to_nat ids)).
    { unfold Helpers.ranked. rewrite map_map, map_map.
      transitivity (map (fun z => nth (Z.to_nat z) Custom6.factors "")
                      (map snd (combine (seq 1 (length ids)) ids))).
      - rewrite map_map. apply map_ext. intros [k z]. reflexivity.
      - rewrite DupFacts.map_snd_combine by apply length_seq. reflexivity. }
    rewrite Hnames, DupFacts2.dup_positions_nodup.
    + rewrite !DupFacts2.in_map_to_nat by exact H0. reflexivity.
    + vm_compute. reflexivity.
    + exact (DupFacts2.NoDup_map_to_nat ids H0 Hnd).
    + apply Forall_map. eapply Forall_impl; [|exact Hr]. cbv beta.
      change (length Custom6.factors) with 59. lia.
Qed.

(** X11: The [gp_minimize] objective raises [ValueError] on a point whose length
    is not 12, and otherwise calls [cached_objective] with the id, weight and
    ascending coordinates of the first three factors; the fourth factor's three
    coordinates are never read. *)
Theorem gp_objective_dispatch (cal_cagr : list Notebook.factor_info -> Py.exc + Q) :
  (forall x, length x <> 12 -> GpOptimize.objective cal_cagr x = inl Py.ValueError) /\
  (forall x0 x1 x2 x3 x4 x5 x6 x7 x8 x9 x10 x11,
     GpOptimize.objective cal_cagr [x0; x1; x2; x3; x4; x5; x6; x7; x8; x9; x10; x11] =
     GpOptimize.cached_objective cal_cagr x0 x3 x6 x1 x4 x7 x2 x5 x8).
Proof.
  split.
  - intros x Hx. unfold GpOptimize.objective.
    change (length GpOptimize.space_names) with 12.
    rewrite (proj2 (Nat.eqb_neq _ _) Hx). reflexivity.
  - intros. reflexivity.
Qed.

(** X12: [cached_objective] returns the penalty 1000000 when two of the three
    factor ids are equal as Python set elements ([True] counts as [1]). *)
Theorem gp_repeated_id_penalised (cal_cagr : list Notebook.factor_info -> Py.exc + Q)
    (f1 f2 f3 w1 w2 w3 a1 a2 a3 : pyval)
    (Hdup : ~ NoDup (map Py.hash_key [f1; f2; f3])) :
  GpOptimize.cached_objective cal_cagr f1 f2 f3 w1 w2 w3 a1 a2 a3 = inr (1000000 # 1)%Q.
Proof.
  unfold GpOptimize.cached_objective.
  pose proof (Custom6Facts.nodup_length_lt Py.hash_key_eq_dec _ Hdup) as H.
  change (length (map Py.hash_key [f1; f2; f3])) with 3 in H.
  apply Nat.ltb_lt in H. cbv zeta. rewrite H. reflexivity.
Qed.

(** X13: With three distinct ids that index the factor list, [cached_objective]
    returns the negated score of [cal_cagr] on the three factors, or its error. *)
Theorem gp_distinct_ids_scored (cal_cagr : list Notebook.factor_info -> Py.exc + Q)
    (f1 f2 f3 w1 w2 w3 a1 a2 a3 : pyval) (n1 n2 n3 : string)
    (Hnd : NoDup (map Py.hash_key [f1; f2; f3]))
    (H1 : Py.list_getitem GpOptimize.factors f1 = inr n1)
    (H2 : Py.list_getitem GpOptimize.factors f2 = inr n2)
    (H3 : Py.list_getitem GpOptimize.factors f3 = inr n3) :
  GpOptimize.cached_objective cal_cagr f1 f2 f3 w1 w2 w3 a1 a2 a3 =
  match cal_cagr [Notebook.mk_factor_info n1 w1 a1; Notebook.mk_factor_info n2 w2 a2;
                  Notebook.mk_factor_info n3 w3 a3] with
  | inl e => inl e
  | inr c => inr (- c)%Q
  end.
Proof.
  unfold GpOptimize.cached_objective. cbv zeta.
  rewrite (nodup_fixed_point Py.hash_key_eq_dec Hnd).
  change (length (map Py.hash_key [f1; f2; f3])) with 3. cbn [Nat.ltb Nat.leb].
  cbn [Py.map_exc seq Nat.sub nth_error]. rewrite H1, H2, H3. reflexivity.
Qed.


Module LaunchFacts.
Import Launch Helpers.
Local Open Scope string_scope.

Lemma loop_single_takevalue cf a x :
  cf a = TakeValue x -> forall n e, parse_loop cf n [a] e = None.
Proof.
  intros Ha n; induction n as [|n IH]; intros e; cbn [parse_loop]; [reflexivity|].
  rewrite Ha. apply IH.
Qed.

(** A value option left at the end, after arguments the loop parses through,
    makes the loop spin until its fuel runs out. *)
Lemma loop_trailing cf a x (Ha : cf a = TakeValue x) :
  forall n pre e e', parse_loop cf n pre e = Some (inr e') ->
  forall fuel, parse_loop cf fuel (pre ++ [a]) e = None.
Proof.
  induction n as [|n IH]; intros pre e e' H fuel; [discriminate|].
  destruct pre as [|b pre]; [exact (loop_single_takevalue cf a x Ha fuel e)|].
  destruct fuel as [|fuel]; [reflexivity|].
  cbn [parse_loop] in H. cbn [app parse_loop].
  destruct (cf b) as [y|y v|c] eqn:Hb.
  - destruct pre as [|v pre'].
    + rewrite (loop_single_takevalue cf b y Hb) in H. discriminate.
    + exact (IH pre' _ _ H fuel).
  - exact (IH pre _ _ H fuel).
  - discriminate.
Qed.

Lemma nounset_trailing cf a x (Ha : cf a = TakeValue x) :
  forall n pre e e', length pre <= n -> parse_nounset cf pre e = inr e' ->
  parse_nounset cf (pre ++ [a]) e = inl 1.
Proof.
  induction n as [|n IH]; intros pre e e' Hl H.
  - destruct pre; [|cbn in Hl; lia]. cbn. rewrite Ha. reflexivity.
  - destruct pre as [|b pre]; [cbn; rewrite Ha; reflexivity|].
    cbn [parse_nounset] in H. cbn [app parse_nounset].
    destruct (cf b) as [y|y v|c] eqn:Hb.
    + destruct pre as [|v pre']; [discriminate|].
      cbn [app]. apply (IH pre' _ e' ltac:(cbn in Hl; lia) H).
    + apply (IH pre _ e' ltac:(cbn in Hl; lia) H).
    + discriminate.
Qed.

Lemma assign_agree k x v e1 e2 :
  agree_except k e1 e2 -> agree_except k (assign x v e1) (assign x v e2).
Proof.
  intros H y Hy. unfold assign. destruct (String.eqb y x); [reflexivity|auto].
Qed.

Lemma loop_agree cf k :
  forall n args e1 e2, agree_except k e1 e2 ->
  same_outcome k (parse_loop cf n args e1) (parse_loop cf n args e2).
Proof.
  induction n as [|n IH]; intros args e1 e2 H; cbn [parse_loop]; [exact I|].
  destruct args as [|a rest]; [exact H|].
  destruct (cf a) as [x|x v|c].
  - destruct rest as [|v rest']; apply IH, assign_agree, H.
  - apply IH, assign_agree, H.
  - reflexivity.
Qed.

Lemma batch_commands_agree e1 e2 :
  agree_except "ENABLE_FILTER_OPT" e1 e2 -> batch_commands e1 = batch_commands e2.
Proof.
  intros H. unfold batch_commands.
  rewrite (H "CLEAR_RESULTS"), (H "MODE"), (H "TRIALS"), (H "ITERATIONS"), (H "HOLD"),
    (H "FACTORS") by discriminate.
  reflexivity.
Qed.



Lemma append_empty_r (s : string) : s ++ "" = s.
Proof. induction s as [|c s IH]; cbn; [reflexivity|now rewrite IH]. Qed.

Lemma append_assoc (s t u : string) : (s ++ t) ++ u = s ++ (t ++ u).
Proof. induction s as [|c s IH]; cbn; [reflexivity|now rewrite IH]. Qed.

Lemma digit_not_ifs (c : ascii) : Nat.leb 48 (nat_of_ascii c) = true -> is_ifs c = false.
Proof.
  intros H. unfold is_ifs.
  destruct (Ascii.eqb_spec c " "%char) as [->|_]; [discriminate|].
  destruct (Ascii.eqb_spec c (ascii_of_nat 9)) as [->|_]; [discriminate|].
  destruct (Ascii.eqb_spec c (ascii_of_nat 10)) as [->|_]; [discriminate|].
  reflexivity.
Qed.

Lemma split_fields_digits (s cur : string) :
  all_digits s = true ->
  split_fields s cur = if String.eqb (cur ++ s) "" then [] else [cur ++ s].
Proof.
  revert cur; induction s as [|c s IH]; intros cur H.
  - cbn [split_fields]. now rewrite append_empty_r.
  - cbn [all_digits] in H. apply andb_prop in H as [Hc Hs]. apply andb_prop in Hc as [Hc _].
    cbn [split_fields]. rewrite (digit_not_ifs c Hc), (IH _ Hs), append_assoc. reflexivity.
Qed.

Lemma unquoted_number (s : string) : is_number s = true -> unquoted s = [s].
Proof.
  unfold is_number. intros H. apply andb_prop in H as [Hn Hd].
  unfold unquoted. rewrite (split_fields_digits s "" Hd). cbn [append].
  destruct (String.eqb s ""); [discriminate|reflexivity].
Qed.

End LaunchFacts.


(** X14: [batch_run_opt.sh] given a value option as its last argument, after
    arguments its loop parses through, never leaves its parsing loop. *)
Theorem batch_trailing_option_diverges (pre : list string) (a x : string) (n fuel : nat)
    (e : Launch.env)
    (Hpre : Launch.parse_loop Launch.batch_case n pre Launch.batch_defaults = Some (inr e))
    (Ha : Launch.batch_case a = Launch.TakeValue x) :
  Launch.batch_run_opt fuel (pre ++ [a]) = None.
Proof.
  unfold Launch.batch_run_opt.
  rewrite (LaunchFacts.loop_trailing _ a x Ha n pre _ e Hpre fuel). reflexivity.
Qed.

(** X15: [run_optimizer.sh] given a value option as its last argument, after
    arguments its loop parses through, never leaves its parsing loop. *)
Theorem optimizer_trailing_option_diverges (workspace_id timestamp confirm : string)
    (pre : list string) (a x : string) (n fuel : nat) (e : Launch.env)
    (Hpre : Launch.parse_loop Launch.optimizer_case n pre Launch.optimizer_defaults = Some (inr e))
    (Ha : Launch.optimizer_case a = Launch.TakeValue x) :
  Launch.run_optimizer workspace_id timestamp confirm fuel (pre ++ [a]) = None.
Proof.
  unfold Launch.run_optimizer.
  rewrite (LaunchFacts.loop_trailing _ a x Ha n pre _ e Hpre fuel). reflexivity.
Qed.

(** X16: [run_opt.sh] (under [set -u]) exits with status 1 when its last
    argument is a value option with no value. *)
Theorem run_opt_trailing_option_exits (dir_exists : string -> bool) (pre : list string)
    (a x : string) (e : Launch.env)
    (Hpre : Launch.parse_nounset Launch.run_opt_case pre Launch.run_opt_defaults = inr e)
    (Ha : Launch.run_opt_case a = Launch.TakeValue x) :
  Launch.run_opt dir_exists (pre ++ [a]) = inl 1.
Proof.
  unfold Launch.run_opt.
  rewrite length_app. cbn [length]. rewrite Nat.add_1_r. cbn [Nat.eqb].
  rewrite (LaunchFacts.nounset_trailing _ a x Ha (length pre) pre _ e (le_n _) Hpre).
  reflexivity.
Qed.

(** X17: A leading [--enable_filter_opt] does not change what [batch_run_opt.sh]
    does: the flag's variable is never read. *)
Theorem batch_enable_filter_opt_ignored (fuel : nat) (args : list string) :
  Launch.batch_run_opt (S fuel) ("--enable_filter_opt" :: args) =
  Launch.batch_run_opt fuel args.
Proof.
  unfold Launch.batch_run_opt. cbn [Launch.parse_loop].
  assert (Hc : Launch.batch_case "--enable_filter_opt" =
               Launch.SetFlag "ENABLE_FILTER_OPT" "true") by reflexivity.
  rewrite Hc.
  assert (Hag : Helpers.agree_except "ENABLE_FILTER_OPT"
                  (Launch.assign "ENABLE_FILTER_OPT" "true" Launch.batch_defaults)
                  Launch.batch_defaults).
  { intros y Hy. unfold Launch.assign at 1.
    destruct (String.eqb_spec y "ENABLE_FILTER_OPT"); [contradiction|reflexivity]. }
  pose proof (LaunchFacts.loop_agree Launch.batch_case "ENABLE_FILTER_OPT" fuel args _ _ Hag)
    as Hs.
  destruct (Launch.parse_loop _ fuel args (Launch.assign _ _ _)) as [[c1|e1]|];
    destruct (Launch.parse_loop _ fuel args Launch.batch_defaults) as [[c2|e2]|];
    cbn in Hs; try contradiction.
  - now subst.
  - now rewrite (LaunchFacts.batch_commands_agree e1 e2 Hs).
  - reflexivity.
Qed.


(** X19: When [run_opt.sh] runs [./run_optimizer.sh], that call starts the
    optimizer in the background with log [optimization.log], running the
    domain-knowledge optimizer in mode [single] and the continuous optimizer
    otherwise, with strategy [multistage], 5 jobs and the price range 100..200. *)
Theorem run_opt_calls_optimizer (dir_exists : string -> bool) (args : list string)
    (prog : string) (argv : list string) (workspace_id timestamp confirm : string) (fuel : nat)
    (Hrun : Launch.run_opt dir_exists args = inr (prog, argv)) (Hfuel : 20 <= fuel) :
  exists e,
    Launch.parse_nounset Launch.run_opt_case args Launch.run_opt_defaults = inr e /\
    prog = "./run_optimizer.sh" /\
    dir_exists (Launch.target_dir e) = true /\
    Launch.run_optimizer workspace_id timestamp confirm fuel argv =
    Some (Launch.ORun true "optimization.log"
      (if String.eqb (e "MODE") "single" then
         "python -m lude.optimization.domain_knowledge_optimizer --strategy multistage"
         ++ " --method tpe --n_trials " ++ e "TRIALS" ++ " --n_factors " ++ e "FAC"
         ++ " --start_date 20220729 --end_date 20240809 --price_min 100 --price_max 200"
         ++ " --hold_num " ++ e "HOLD" ++ " --n_jobs 5 --seed 42 --workspace_id "
         ++ workspace_id
       else
         "python -m lude.optimization.continuous_optimizer --iterations " ++ e "ITERATIONS"
         ++ " --strategy multistage --method tpe --n_trials " ++ e "TRIALS"
         ++ " --n_factors " ++ e "FAC"
         ++ " --start_date 20220729 --end_date 20240809 --price_min 100 --price_max 200"
         ++ " --hold_num " ++ e "HOLD" ++ " --n_jobs 5 --seed_start 42 --seed_step 1000"
         ++ " --workspace_id " ++ workspace_id)).
Proof.
  unfold Launch.run_opt in Hrun.
  destruct (Nat.eqb (length args) 0); [discriminate|].
  destruct (Launch.parse_nounset Launch.run_opt_case args Launch.run_opt_defaults)
    as [c|e] eqn:Hp; [discriminate|].
  exists e. split; [reflexivity|].
  destruct (String.eqb (e "HOLD") "" || String.eqb (e "FAC") "" || String.eqb (e "NUM") "");
    [discriminate|].
  destruct (negb (String.eqb (e "MODE") "single") && negb (String.eqb (e "MODE") "continuous"))
    eqn:Hmode; [discriminate|].
  destruct (forallb Launch.is_number [e "HOLD"; e "FAC"; e "NUM"; e "ITERATIONS"; e "TRIALS"])
    eqn:Hnums; [|discriminate].
  destruct (dir_exists (Launch.target_dir e)) eqn:Hdir; [|discriminate].
  cbn [negb] in Hrun. injection Hrun as <- <-.
  split; [reflexivity|]. split; [reflexivity|].
  cbn [forallb] in Hnums.
  apply andb_prop in Hnums as [HH Hnums]. apply andb_prop in Hnums as [HF Hnums].
  apply andb_prop in Hnums as [_ Hnums]. apply andb_prop in Hnums as [HI Hnums].
  apply andb_prop in Hnums as [HT _].
  unfold Launch.run_opt_command. cbv zeta.
  rewrite (LaunchFacts.unquoted_number _ HH), (LaunchFacts.unquoted_number _ HF),
    (LaunchFacts.unquoted_number _ HI), (LaunchFacts.unquoted_number _ HT).
  do 20 (destruct fuel as [|fuel]; [lia|]).
  destruct (String.eqb_spec (e "MODE") "single") as [Hs|Hs].
  - rewrite Hs.
    destruct (String.eqb (e "CLEAR_RESULTS") "true"); reflexivity.
  - destruct (String.eqb_spec (e "MODE") "continuous") as [Hc|Hc];
      [|cbn in Hmode; discriminate].
    rewrite Hc.
    destruct (String.eqb (e "CLEAR_RESULTS") "true"); reflexivity.
Qed.

(** X3: [convert_param]'s [while] loop counts the factors as the largest [n]
    such that [factor1_weight] .. [factor{n}_weight] are all keys of the record. *)
Theorem convert_param_num_factors (d : list (string * pyval)) (n : nat) :
  ConvertParam.num_factors_of d = n <->
  (forall i, 1 <= i <= n -> Py.key_in d (Notebook.weight_name i) = true) /\
  Py.key_in d (Notebook.weight_name (n + 1)) = false.
Proof. apply ConvertParamFacts.num_factors_of_spec. Qed.

Lemma flexible_decode_index_range_witness :
  Samples.negative_id_params "encoded_id" = Some (VInt (-2599)) /\
  ((-2600 <= -2599 < 0)%Z ->
     Notebook.flexible_decode_combination Samples.negative_id_params =
     Notebook.flexible_decode_combination
       (fun k => if String.eqb k "encoded_id" then Some (VInt (-2599 + 2600))
                 else Samples.negative_id_params k) /\
     Notebook.encoded_combinations (-2599) = None) /\
  ((-2599 < -2600 \/ 2600 <= -2599)%Z ->
     Notebook.flexible_decode_combination Samples.negative_id_params = None).
Proof.
  split; [reflexivity|].
  apply (flexible_decode_index_range Samples.negative_id_params (-2599)). reflexivity.
Defined.

Lemma convert_param_roundtrip_witness :
  StronglySorted lt [7; 14; 15] /\ Forall (fun i => i < 27) [7; 14; 15] /\
  exists eid,
    nth_error (combinations (seq 0 27) 3) eid = Some [7; 14; 15] /\
    ConvertParam.flexible_decode_combination
      (("encoded_id", VInt (Z.of_nat eid)) ::
       concat (map (fun i => [(Notebook.weight_name (i + 1), nth i [VInt 1; VInt 2; VInt 3] (VInt 0));
                              (Notebook.ascending_name (i + 1),
                               nth i [VBool true; VBool false; VBool true] (VBool false))])
                   (seq 0 3)))
    = inr (map (fun '(i, index) =>
                  Notebook.mk_factor_info (nth index ConvertParam.factors "")
                    (nth i [VInt 1; VInt 2; VInt 3] (VInt 0))
                    (nth i [VBool true; VBool false; VBool true] (VBool false)))
               (combine (seq 0 3) [7; 14; 15])).
Proof.
  assert (Hs : StronglySorted lt [7; 14; 15]) by (repeat constructor; lia).
  assert (Hr : Forall (fun i => i < 27) [7; 14; 15]) by (repeat constructor; lia).
  split; [exact Hs|]. split; [exact Hr|].
  exact (convert_param_roundtrip [7; 14; 15] [VInt 1; VInt 2; VInt 3]
           [VBool true; VBool false; VBool true] Hs Hr).
Defined.

Lemma convert_param_duplicate_amount_witness :
  Py.getitem Samples.amount_params "encoded_id" = inr (VInt 1878) /\
  Py.list_getitem (combinations (seq 0 27) (ConvertParam.num_factors_of Samples.amount_params))
    (VInt 1878) = inr [7; 14; 15] /\
  ConvertParam.flexible_decode_combination Samples.amount_params =
    inr [Notebook.mk_factor_info "amount" (VInt 1) (VBool true);
         Notebook.mk_factor_info "amount" (VInt 2) (VBool false);
         Notebook.mk_factor_info "option_value" (VInt 3) (VBool true)] /\
  map Notebook.fi_name
    [Notebook.mk_factor_info "amount" (VInt 1) (VBool true);
     Notebook.mk_factor_info "amount" (VInt 2) (VBool false);
     Notebook.mk_factor_info "option_value" (VInt 3) (VBool true)] =
    map (fun i => nth i ConvertParam.factors "") [7; 14; 15] /\
  (NoDup (map Notebook.fi_name
     [Notebook.mk_factor_info "amount" (VInt 1) (VBool true);
      Notebook.mk_factor_info "amount" (VInt 2) (VBool false);
      Notebook.mk_factor_info "option_value" (VInt 3) (VBool true)]) <->
   ~ (In 7 [7; 14; 15] /\ In 14 [7; 14; 15])).
Proof.
  assert (Hid : Py.getitem Samples.amount_params "encoded_id" = inr (VInt 1878))
    by reflexivity.
  assert (Hc : Py.list_getitem (combinations (seq 0 27)
                 (ConvertParam.num_factors_of Samples.amount_params)) (VInt 1878) =
               inr [7; 14; 15]) by (vm_compute; reflexivity).
  assert (Hd : ConvertParam.flexible_decode_combination Samples.amount_params =
    inr [Notebook.mk_factor_info "amount" (VInt 1) (VBool true);
         Notebook.mk_factor_info "amount" (VInt 2) (VBool false);
         Notebook.mk_factor_info "option_value" (VInt 3) (VBool true)])
    by (vm_compute; reflexivity).
  split; [exact Hid|]. split; [exact Hc|]. split; [exact Hd|].
  exact (convert_param_duplicate_amount Samples.amount_params (VInt 1878) [7; 14; 15] _
           Hid Hc Hd).
Defined.

Lemma convert_param_no_factors_witness :
  Py.key_in [("encoded_id", VInt (-1))] (Notebook.weight_name 1) = false /\
  dict_get [("encoded_id", VInt (-1))] "encoded_id" = Some (VInt (-1)) /\
  ConvertParam.flexible_decode_combination [("encoded_id", VInt (-1))] =
  (if (Z.eqb (-1) 0 || Z.eqb (-1) (-1))%bool then inr [] else inl Py.IndexError).
Proof.
  split; [reflexivity|]. split; [reflexivity|].
  apply (convert_param_no_factors [("encoded_id", VInt (-1))] (-1)); reflexivity.
Defined.

Lemma custom6_repeated_id_penalised_witness :
  ~ NoDup (map (fun _ => 3%Z) Custom6.id_names) /\
  Custom6.objective Samples.constant_scorer (fun _ => 3%Z) Samples.custom6_choices =
  (Custom6.id_names, inr (-1000000 # 1)%Q).
Proof.
  assert (H : ~ NoDup (map (fun _ => 3%Z) Custom6.id_names)).
  { cbn. intros Hn. apply NoDup_cons_iff in Hn as [Hn _]. apply Hn. now left. }
  split; [exact H|].
  exact (custom6_repeated_id_penalised Samples.constant_scorer _ Samples.custom6_choices H).
Defined.

Lemma custom6_ids_nodup : NoDup (map Samples.custom6_ids Custom6.id_names).
Proof. cbn. repeat constructor; cbn; lia. Qed.

Lemma custom6_ids_range : Forall (fun z => 0 <= z < 59)%Z (map Samples.custom6_ids Custom6.id_names).
Proof. cbn. repeat constructor; lia. Qed.

Lemma custom6_accepted_trial_witness :
  NoDup (map Samples.custom6_ids Custom6.id_names) /\
  Forall (fun z => 0 <= z < 59)%Z (map Samples.custom6_ids Custom6.id_names) /\
  exists rank_factors,
    Custom6.objective Samples.constant_scorer Samples.custom6_ids Samples.custom6_choices =
      ((Custom6.id_names ++ flat_map (fun i => [Notebook.weight_name i; Notebook.ascending_name i])
                                     (seq 1 6))%list,
       Samples.constant_scorer rank_factors) /\
    map Notebook.fi_name rank_factors =
      map (fun i => nth (Z.to_nat (Samples.custom6_ids (Custom6.id_name i))) Custom6.factors "")
          (seq 1 6) /\
    map Notebook.fi_weight rank_factors =
      map (fun i => Samples.custom6_choices (Notebook.weight_name i)) (seq 1 6) /\
    map Notebook.fi_ascending rank_factors =
      map (fun i => Samples.custom6_choices (Notebook.ascending_name i)) (seq 1 6).
Proof.
  split; [exact custom6_ids_nodup|]. split; [exact custom6_ids_range|].
  exact (custom6_accepted_trial Samples.constant_scorer Samples.custom6_ids
           Samples.custom6_choices custom6_ids_nodup custom6_ids_range).
Defined.

Lemma custom6_transform_inverts_witness :
  NoDup (map Samples.custom6_ids Custom6.id_names) /\
  Forall (fun z => 0 <= z < 59)%Z (map Samples.custom6_ids Custom6.id_names) /\
  exists rank_factors,
    snd (Custom6.objective Samples.constant_scorer Samples.custom6_ids Samples.custom6_choices) =
      Samples.constant_scorer rank_factors /\
    Custom6.transform_params
      (Custom6.trial_params Samples.custom6_ids Samples.custom6_choices
         (fst (Custom6.objective Samples.constant_scorer Samples.custom6_ids
                 Samples.custom6_choices)))
      Custom6.factors =
    inr (map (fun fi => Notebook.mk_factor_info (Notebook.fi_name fi) (Notebook.fi_weight fi)
                          (VBool (negb (Py.truth (Notebook.fi_ascending fi))))) rank_factors).
Proof.
  split; [exact custom6_ids_nodup|]. split; [exact custom6_ids_range|].
  exact (custom6_transform_inverts Samples.constant_scorer Samples.custom6_ids
           Samples.custom6_choices custom6_ids_nodup custom6_ids_range).
Defined.

Lemma custom6_duplicate_names_witness :
  NoDup (map Samples.custom6_ids Custom6.id_names) /\
  Forall (fun z => 0 <= z < 59)%Z (map Samples.custom6_ids Custom6.id_names) /\
  In 7%Z (map Samples.custom6_ids Custom6.id_names) /\
  In 14%Z (map Samples.custom6_ids Custom6.id_names) /\
  exists rank_factors,
    snd (Custom6.objective Samples.constant_scorer Samples.custom6_ids Samples.custom6_choices) =
      Samples.constant_scorer rank_factors /\
    (NoDup (map Notebook.fi_name rank_factors) <->
     ~ (In 7%Z (map Samples.custom6_ids Custom6.id_names) /\
        In 14%Z (map Samples.custom6_ids Custom6.id_names))).
Proof.
  split; [exact custom6_ids_nodup|]. split; [exact custom6_ids_range|].
  split; [cbn; auto|]. split; [cbn; auto|].
  exact (custom6_duplicate_names Samples.constant_scorer Samples.custom6_ids
           Samples.custom6_choices custom6_ids_nodup custom6_ids_range).
Defined.

Lemma gp_repeated_id_penalised_witness :
  ~ NoDup (map Py.hash_key [VInt 7; VBool true; VInt 1]) /\
  GpOptimize.cached_objective Samples.constant_scorer (VInt 7) (VBool true) (VInt 1)
    (VInt 1) (VInt 1) (VInt 1) (VBool true) (VBool true) (VBool true) = inr (1000000 # 1)%Q.
Proof.
  assert (H : ~ NoDup (map Py.hash_key [VInt 7; VBool true; VInt 1])).
  { cbn. intros Hn. apply NoDup_cons_iff in Hn as [_ Hn].
    apply NoDup_cons_iff in Hn as [Hn _]. apply Hn. now left. }
  split; [exact H|].
  exact (gp_repeated_id_penalised Samples.constant_scorer _ _ _ _ _ _ _ _ _ H).
Defined.

Lemma gp_distinct_ids_scored_witness :
  NoDup (map Py.hash_key [VInt 7; VInt (-20); VInt 3]) /\
  Py.list_getitem GpOptimize.factors (VInt 7) = inr "amount" /\
  Py.list_getitem GpOptimize.factors (VInt (-20)) = inr "amount" /\
  Py.list_getitem GpOptimize.factors (VInt 3) = inr "low" /\
  GpOptimize.cached_objective Samples.constant_scorer (VInt 7) (VInt (-20)) (VInt 3)
    (VInt 1) (VInt 2) (VInt 3) (VBool true) (VBool false) (VBool true) =
  match Samples.constant_scorer
          [Notebook.mk_factor_info "amount" (VInt 1) (VBool true);
           Notebook.mk_factor_info "amount" (VInt 2) (VBool false);
           Notebook.mk_factor_info "low" (VInt 3) (VBool true)] with
  | inl e => inl e
  | inr c => inr (- c)%Q
  end.
Proof.
  assert (Hnd : NoDup (map Py.hash_key [VInt 7; VInt (-20); VInt 3])).
  { cbn. repeat constructor; cbn; intros H; repeat destruct H as [H|H]; try discriminate H; exact H. }
  split; [exact Hnd|]. split; [reflexivity|]. split; [reflexivity|]. split; [reflexivity|].
  apply (gp_distinct_ids_scored Samples.constant_scorer (VInt 7) (VInt (-20)) (VInt 3)
           (VInt 1) (VInt 2) (VInt 3) (VBool true) (VBool false) (VBool true)
           "amount" "amount" "low" Hnd); reflexivity.
Defined.

Lemma batch_trailing_option_diverges_witness :
  Launch.parse_loop Launch.batch_case 5 ["--mode"; "single"] Launch.batch_defaults =
    Some (inr (Launch.assign "MODE" "single" Launch.batch_defaults)) /\
  Launch.batch_case "--trials" = Launch.TakeValue "TRIALS" /\
  Launch.batch_run_opt 1000 (["--mode"; "single"] ++ ["--trials"]) = None.
Proof.
  split; [reflexivity|]. split; [reflexivity|].
  apply (batch_trailing_option_diverges ["--mode"; "single"] "--trials" "TRIALS" 5 1000
           (Launch.assign "MODE" "single" Launch.batch_defaults)); reflexivity.
Defined.

Lemma optimizer_trailing_option_diverges_witness :
  Launch.parse_loop Launch.optimizer_case 5 ["-m"; "continuous"] Launch.optimizer_defaults =
    Some (inr (Launch.assign "MODE" "continuous" Launch.optimizer_defaults)) /\
  Launch.optimizer_case "--trials" = Launch.TakeValue "N_TRIALS" /\
  Launch.run_optimizer "ws" "20240101_000000" "y" 1000 (["-m"; "continuous"] ++ ["--trials"])
    = None.
Proof.
  split; [reflexivity|]. split; [reflexivity|].
  apply (optimizer_trailing_option_diverges "ws" "20240101_000000" "y" ["-m"; "continuous"]
           "--trials" "N_TRIALS" 5 1000
           (Launch.assign "MODE" "continuous" Launch.optimizer_defaults)); reflexivity.
Defined.

Lemma run_opt_trailing_option_exits_witness :
  Launch.parse_nounset Launch.run_opt_case ["--hold"; "5"] Launch.run_opt_defaults =
    inr (Launch.assign "HOLD" "5" Launch.run_opt_defaults) /\
  Launch.run_opt_case "--num" = Launch.TakeValue "NUM" /\
  Launch.run_opt (fun _ => true) (["--hold"; "5"] ++ ["--num"]) = inl 1.
Proof.
  split; [reflexivity|]. split; [reflexivity|].
  apply (run_opt_trailing_option_exits (fun _ => true) ["--hold"; "5"] "--num" "NUM"
           (Launch.assign "HOLD" "5" Launch.run_opt_defaults)); reflexivity.
Defined.


Lemma run_opt_calls_optimizer_witness :
  Launch.run_opt (fun _ => true) Samples.run_opt_args =
    inr (fst Samples.run_opt_call, snd Samples.run_opt_call) /\
  exists e,
    Launch.parse_nounset Launch.run_opt_case Samples.run_opt_args Launch.run_opt_defaults = inr e /\
    fst Samples.run_opt_call = "./run_optimizer.sh" /\
    Launch.target_dir e = "/root/autodl-tmp/lude_100_150_hold5_fac3_num1/lude/" /\
    Launch.run_optimizer "ws" "20240101_000000" "" 20 (snd Samples.run_opt_call) =
    Some (Launch.ORun true "optimization.log"
      ("python -m lude.optimization.domain_knowledge_optimizer --strategy multistage"
       ++ " --method tpe --n_trials 3000 --n_factors 3"
       ++ " --start_date 20220729 --end_date 20240809 --price_min 100 --price_max 200"
       ++ " --hold_num 5 --n_jobs 5 --seed 42 --workspace_id ws")).
Proof.
  assert (Hrun : Launch.run_opt (fun _ => true) Samples.run_opt_args =
                 inr (fst Samples.run_opt_call, snd Samples.run_opt_call)) by reflexivity.
  split; [exact Hrun|].
  destruct (run_opt_calls_optimizer (fun _ => true) Samples.run_opt_args
              (fst Samples.run_opt_call) (snd Samples.run_opt_call) "ws" "20240101_000000" ""
              20 Hrun ltac:(lia)) as (e & Hp & Hprog & _ & Hopt).
  exists e. split; [exact Hp|]. split; [exact Hprog|].
  vm_compute in Hp. injection Hp as <-. split; [reflexivity|].
  rewrite Hopt. reflexivity.
Defined.
